(** * cafe_manger: the order-management model of [app.py]

    A shallow embedding of the Flask handlers of [app.py] and of the SQL
    statements they run, with the data-consistency and validation
    properties of the specification stated and settled against it.

    Conventions of the model:
    - a Python [str] is the list of its Unicode code points;
    - a Python [int] is a [Z]; the storage engine holds the integers of
      64 bits, and a Python [int] outside them raises where a statement
      binds it;
    - a table with an INTEGER PRIMARY KEY is a finite map from the key to
      the remaining columns, every one of them nullable;
    - a handler is a function from the request and the database to the
      response and the database after it;
    - [datetime('now')] is an input of the operations that read it. *)

From Stdlib Require Import ZArith NArith List String Ascii Lia.
From Stdlib Require Decimal DecimalPos DecimalZ.
From stdpp Require Import gmap strings list fin_maps sorting.

Local Open Scope Z_scope.

(** ** The Python runtime: [str.strip] and [int] *)

Module Py.

Abbreviation text := (list N).

(** An ASCII literal as a [str]. *)
Definition lit (s : string) : text :=
  (λ a, N.of_nat (nat_of_ascii a)) <$> list_ascii_of_string s.

(** [Py_UNICODE_ISSPACE]: the characters [str.strip()] removes. *)
Definition isspace (c : N) : bool :=
  ((0x09 <=? c) && (c <=? 0x0D) || (0x1C <=? c) && (c <=? 0x20)
   || (c =? 0x85) || (c =? 0xA0) || (c =? 0x1680)
   || (0x2000 <=? c) && (c <=? 0x200A)
   || (c =? 0x2028) || (c =? 0x2029) || (c =? 0x202F) || (c =? 0x205F)
   || (c =? 0x3000))%N.

Fixpoint lstrip (sp : N → bool) (s : text) : text :=
  match s with
  | c :: s' => if sp c then lstrip sp s' else s
  | [] => []
  end.

Definition strip_with (sp : N → bool) (s : text) : text :=
  rev (lstrip sp (rev (lstrip sp s))).

(** [s.strip()] *)
Definition strip (s : text) : text := strip_with isspace s.

(** First code points of the runs of ten decimal digits (category Nd)
    that [Py_UNICODE_TODECIMAL] knows, the mathematical digits
    U+1D7CE..U+1D7FF apart. The table is the one of Unicode 14.0, which
    CPython 3.11 carries; a later interpreter knows more digits. *)
Definition decimal_runs : list N :=
  [0x0030; 0x0660; 0x06F0; 0x07C0; 0x0966; 0x09E6; 0x0A66; 0x0AE6; 0x0B66;
   0x0BE6; 0x0C66; 0x0CE6; 0x0D66; 0x0DE6; 0x0E50; 0x0ED0; 0x0F20; 0x1040;
   0x1090; 0x17E0; 0x1810; 0x1946; 0x19D0; 0x1A80; 0x1A90; 0x1B50; 0x1BB0;
   0x1C40; 0x1C50; 0xA620; 0xA8D0; 0xA900; 0xA9D0; 0xA9F0; 0xAA50; 0xABF0;
   0xFF10; 0x104A0; 0x10D30; 0x11066; 0x110F0; 0x11136; 0x111D0; 0x112F0;
   0x11450; 0x114D0; 0x11650; 0x116C0; 0x11730; 0x118E0; 0x11950; 0x11C50;
   0x11D50; 0x11DA0; 0x16A60; 0x16AC0; 0x16B50; 0x1E140; 0x1E2F0; 0x1E950;
   0x1FBF0]%N.

Fixpoint decimal_in (runs : list N) (c : N) : option Z :=
  match runs with
  | [] => None
  | r :: runs' =>
      if ((r <=? c) && (c <? r + 10))%N then Some (Z.of_N (c - r))
      else decimal_in runs' c
  end.

(** [Py_UNICODE_TODECIMAL] *)
Definition decimal (c : N) : option Z :=
  if ((0x1D7CE <=? c) && (c <=? 0x1D7FF))%N
  then Some (Z.of_N ((c - 0x1D7CE) mod 10))
  else decimal_in decimal_runs c.

(** The white space [int()] skips around the number: the ASCII [isspace]
    class, and every non-ASCII [Py_UNICODE_ISSPACE] character (which the
    conversion first rewrites to a blank). *)
Definition int_isspace (c : N) : bool :=
  ((0x09 <=? c) && (c <=? 0x0D) || (c =? 0x20) || (127 <=? c) && isspace c)%N.

(** The digits of a base-10 literal: single underscores are allowed between
    digits only. [prev] tells whether the previous character was a digit. *)
Fixpoint int_digits (acc : Z) (prev : bool) (s : text) : option Z :=
  match s with
  | [] => if prev then Some acc else None
  | c :: s' =>
      if (c =? 0x5F)%N then
        if prev then int_digits acc false s' else None
      else
        match decimal c with
        | Some d => int_digits (10 * acc + d) true s'
        | None => None
        end
  end.

(** [int(s)]: [Some n] for the value, [None] for [ValueError]. *)
Definition int (s : text) : option Z :=
  match strip_with int_isspace s with
  | 0x2B%N :: s' => int_digits 0 false s'
  | 0x2D%N :: s' => Z.opp <$> int_digits 0 false s'
  | s' => int_digits 0 false s'
  end.

(** [sys.int_max_str_digits]: where the interpreter limits the literals
    [int()] reads, the largest number of digits it takes (4300 unless
    configured otherwise; an interpreter before 3.11 has no limit). The
    limit is a setting of the interpreter and is kept out of [int]: a
    statement that a number is accepted is made for a text that is within
    it. *)
Definition int_max_str_digits : nat := 4300.

End Py.

Import Py.

(** ** The database behind the handlers

    [schema.sql] is not part of the sources. The tables are the three of the
    specification's data model with the columns the statements of [app.py]
    name; [ID] is the key of the map. *)

Module User.
Record row := Row {
  FirstName : option text;
  LastName : option text;
  Phone : option Z;
  CreatedAt : option text }.
End User.

Module Menu.
Record row := Row {
  Name : option text;
  Price : option Z;
  Category : option text;
  IsAvailable : option Z }.
End Menu.

Module Checkout.
Record row := Row {
  UserID : option Z;
  quantity : option Z;
  ItemID : option Z;
  ItemPrice : option Z;
  TotalPrice : option Z;
  Status : option text;
  Notes : option text;
  CreatedAt : option text }.
End Checkout.

Record db := Db {
  user : gmap Z User.row;
  menu : gmap Z Menu.row;
  checkout : gmap Z Checkout.row }.

Inductive exn :=
  | IntegrityError    (* FOREIGN KEY constraint failed *)
  | OperationalError  (* no such table, duplicate column name, integer overflow *)
  | OverflowError.    (* Python int too large to convert to SQLite INTEGER *)

Inductive result (A : Type) :=
  | Ok (a : A)
  | Raise (e : exn).
Arguments Ok {A} a.
Arguments Raise {A} e.

#[global] Instance result_fmap : FMap result := λ A B f r,
  match r with
  | Ok a => Ok (f a)
  | Raise e => Raise e
  end.

(** The integers of the storage engine. *)
Definition int64 (z : Z) : bool := (- 2 ^ 63 <=? z) && (z <? 2 ^ 63).
Arguments int64 : simpl never.

(** The integers among the parameters of a statement are bound before the
    statement runs: one that the engine cannot hold raises there, and
    nothing has been read or written. *)
Definition bound {A} (params : list Z) (run : result A) : result A :=
  if forallb int64 params then run else Raise OverflowError.

(** The engine's addition: beyond its integers it fails with "integer
    overflow". *)
Definition add64 (a b : Z) : result Z :=
  if int64 (a + b) then Ok (a + b) else Raise OperationalError.

(** Modelled from the spec: [schema.sql] is missing, and with it the
    declaration of the keys; "identity (integer, auto-assigned)" is taken as
    the engine's rowid rule, one more than the largest key in use and 1 in
    an empty table. *)
Definition max_rowid {A} (m : gmap Z A) : option Z :=
  foldr (λ k acc, Some (match acc with Some a => Z.max k a | None => k end))
        None (map_to_list m).*1.

Definition next_rowid {A} (m : gmap Z A) : Z :=
  match max_rowid m with
  | Some k => k + 1
  | None => 1
  end.

(** Whether a foreign key column with value [v] has its parent row. NULL
    references nothing and passes. *)
Definition references {A} (v : option Z) (parent : gmap Z A) : bool :=
  match v with
  | Some k => bool_decide (is_Some (parent !! k))
  | None => true
  end.

(** The constraint of one order row. [fk] tells whether [schema.sql]
    declares the two foreign keys of [checkout] (the connection sets
    [PRAGMA foreign_keys = ON]). *)
Definition fk_ok (fk : bool) (d : db) (o : Checkout.row) : bool :=
  negb fk || references (Checkout.UserID o) (user d)
             && references (Checkout.ItemID o) (menu d).

Section Statements.
Import User Menu Checkout.

(** INSERT INTO menu(Name, Price, Category, IsAvailable) VALUES (?, ?, ?, ?) *)
Definition insert_menu (name : text) (price : Z) (category : text)
    (is_available : Z) (d : db) : result db :=
  bound [price; is_available]
    (Ok (Db (user d)
            (<[next_rowid (menu d) :=
                 Menu.Row (Some name) (Some price) (Some category)
                          (Some is_available)]> (menu d))
            (checkout d))).

(** UPDATE menu SET Name = ?, Price = ?, Category = ?, IsAvailable = ? WHERE ID = ? *)
Definition update_menu (name : text) (price : Z) (category : text)
    (is_available : Z) (item_id : Z) (d : db) : result db :=
  bound [price; is_available; item_id]
    (Ok (Db (user d)
            (alter (λ _, Menu.Row (Some name) (Some price) (Some category)
                                  (Some is_available)) item_id (menu d))
            (checkout d))).

(** SELECT ... FROM t WHERE ID = ?, read with [one=True]. *)
Definition select_where_ID {A} (id : Z) (t : gmap Z A) : result (option A) :=
  bound [id] (Ok (t !! id)).

(** The four DELETE statements bind nothing but the identity in the URL of
    their route. They are given here for every identity; [serve] below hands
    a handler the identities that a URL can name and the engine can hold,
    and answers for the others.

    DELETE FROM checkout WHERE ItemID = ? *)
Definition delete_checkout_where_ItemID (item_id : Z) (d : db) : db :=
  Db (user d) (menu d)
     (filter (λ kv, ItemID kv.2 ≠ Some item_id) (checkout d)).

(** DELETE FROM checkout WHERE UserID = ? *)
Definition delete_checkout_where_UserID (user_id : Z) (d : db) : db :=
  Db (user d) (menu d)
     (filter (λ kv, UserID kv.2 ≠ Some user_id) (checkout d)).

(** DELETE FROM menu WHERE ID = ?  With the foreign keys declared (and
    their default action), deleting a row that an order still references
    fails. *)
Definition delete_menu (fk : bool) (item_id : Z) (d : db) : result db :=
  if fk && bool_decide (is_Some (menu d !! item_id))
        && bool_decide (map_Exists (λ _ o, ItemID o = Some item_id) (checkout d))
  then Raise IntegrityError
  else Ok (Db (user d) (delete item_id (menu d)) (checkout d)).

(** DELETE FROM user WHERE ID = ? *)
Definition delete_user (fk : bool) (user_id : Z) (d : db) : result db :=
  if fk && bool_decide (is_Some (user d !! user_id))
        && bool_decide (map_Exists (λ _ o, UserID o = Some user_id) (checkout d))
  then Raise IntegrityError
  else Ok (Db (delete user_id (user d)) (menu d) (checkout d)).

(** INSERT INTO user(FirstName, LastName, Phone, CreatedAt)
    VALUES (?, ?, ?, datetime('now')) *)
Definition insert_user (now : text) (first last : text) (phone : Z)
    (d : db) : result db :=
  bound [phone]
    (Ok (Db (<[next_rowid (user d) :=
                 User.Row (Some first) (Some last) (Some phone) (Some now)]>
               (user d))
            (menu d) (checkout d))).

(** UPDATE user SET FirstName = ?, LastName = ?, Phone = ? WHERE ID = ? *)
Definition update_user (first last : text) (phone : Z) (user_id : Z)
    (d : db) : result db :=
  bound [phone; user_id]
    (Ok (Db (alter (λ r, User.Row (Some first) (Some last) (Some phone)
                                  (User.CreatedAt r)) user_id (user d))
            (menu d) (checkout d))).

(** INSERT INTO checkout(UserID, quantity, ItemID, ItemPrice, TotalPrice,
    Status, Notes, CreatedAt) VALUES (?, ?, ?, ?, ?, ?, ?, datetime('now')) *)
Definition insert_checkout (fk : bool) (now : text) (user_id qty item_id
    item_price total : Z) (status : text) (notes : option text) (d : db)
    : result db :=
  let o := Checkout.Row (Some user_id) (Some qty) (Some item_id)
             (Some item_price) (Some total) (Some status) notes (Some now) in
  bound [user_id; qty; item_id; item_price; total]
    (if fk_ok fk d o
     then Ok (Db (user d) (menu d) (<[next_rowid (checkout d) := o]> (checkout d)))
     else Raise IntegrityError).

(** UPDATE checkout SET UserID = ?, quantity = ?, ItemID = ?, ItemPrice = ?,
    TotalPrice = ?, Status = ?, Notes = ? WHERE ID = ? *)
Definition update_checkout (fk : bool) (user_id qty item_id item_price
    total : Z) (status : text) (notes : option text) (order_id : Z) (d : db)
    : result db :=
  bound [user_id; qty; item_id; item_price; total; order_id]
    (match checkout d !! order_id with
     | None => Ok d
     | Some old =>
         let o := Checkout.Row (Some user_id) (Some qty) (Some item_id)
                    (Some item_price) (Some total) (Some status) notes
                    (Checkout.CreatedAt old) in
         if fk_ok fk d o
         then Ok (Db (user d) (menu d) (<[order_id := o]> (checkout d)))
         else Raise IntegrityError
     end).

(** DELETE FROM checkout WHERE ID = ? *)
Definition delete_checkout (order_id : Z) (d : db) : db :=
  Db (user d) (menu d) (delete order_id (checkout d)).
End Statements.

(** ** Requests and responses *)

(** [request.form]: the submitted fields by name. *)
Abbreviation form := (gmap string text).

(** [request.form.get(k) or d]: the default replaces an absent and an
    empty field alike. *)
Definition get_or (f : form) (k : string) (d : text) : text :=
  match f !! k with
  | Some (c :: s) => c :: s
  | _ => d
  end.

(** ["عمومی"], the default of [category]. *)
Definition default_category : text := [0x639; 0x645; 0x648; 0x645; 0x6CC]%N.

(** ["در انتظار"], the default of [status]. *)
Definition default_status : text :=
  [0x62F; 0x631; 0x20; 0x627; 0x646; 0x62A; 0x638; 0x627; 0x631]%N.

Inductive category := danger | success.

(** The flashed messages, named by what the Persian text says. *)
Inductive message :=
  | item_name_empty      (* menu: the item name cannot be empty *)
  | price_invalid        (* menu: the price is invalid *)
  | item_added
  | item_updated
  | item_deleted
  | names_required       (* customer: first and last name are required *)
  | phone_invalid        (* customer: the phone number is invalid *)
  | customer_added
  | customer_updated
  | customer_deleted
  | order_invalid        (* order: the order data is invalid *)
  | item_missing         (* order: the selected item does not exist *)
  | order_placed
  | order_updated
  | order_deleted.

Inductive response :=
  | redirect_dashboard (cat : category) (msg : message)
      (* flash(msg, cat); return redirect(url_for("dashboard")) *)
  | abort_404            (* abort(404), rendered by [not_found] *)
  | error_500 (e : exn). (* an exception nobody caught, rendered by [server_error] *)

(** The outcomes the specification speaks of. *)
Definition validation_failed (r : response) : Prop :=
  ∃ msg, r = redirect_dashboard danger msg.

Definition succeeded (r : response) : Prop :=
  ∃ msg, r = redirect_dashboard success msg.


(** A handler that ends in [execute(...)]: the response after the
    statement, or the 500 page when the statement raises. *)
Definition after (r : result db) (d : db) (msg : message) : response * db :=
  match r with
  | Ok d' => (redirect_dashboard success msg, d')
  | Raise e => (error_500 e, d)
  end.

Local Open Scope string_scope.
Local Open Scope Z_scope.

(** ** Menu CRUD *)

Definition menu_create (f : form) (d : db) : response * db :=
  let name := strip (get_or f "name" []) in
  let category := strip (get_or f "category" default_category) in
  let price_raw := strip (get_or f "price" (lit "0")) in
  let is_available :=
    if bool_decide (f !! "is_available" = Some (lit "on")) then 1 else 0 in
  if bool_decide (name = []) then (redirect_dashboard danger item_name_empty, d)
  else
    match int price_raw with
    | Some price =>
        if price <? 0 then (redirect_dashboard danger price_invalid, d)
        else after (insert_menu name price category is_available d) d item_added
    | None => (redirect_dashboard danger price_invalid, d)
    end.

Definition menu_update (item_id : Z) (f : form) (d : db) : response * db :=
  let name := strip (get_or f "name" []) in
  let category := strip (get_or f "category" default_category) in
  let price_raw := strip (get_or f "price" (lit "0")) in
  let is_available :=
    if bool_decide (f !! "is_available" = Some (lit "on")) then 1 else 0 in
  match select_where_ID item_id (menu d) with
  | Raise e => (error_500 e, d)
  | Ok None => (abort_404, d)
  | Ok (Some _) =>
      if bool_decide (name = [])
      then (redirect_dashboard danger item_name_empty, d)
      else
        match int price_raw with
        | Some price =>
            if price <? 0 then (redirect_dashboard danger price_invalid, d)
            else after (update_menu name price category is_available item_id d)
                       d item_updated
        | None => (redirect_dashboard danger price_invalid, d)
        end
  end.

(** The two statements are two transactions: if the second raised, the
    first would stay committed. *)
Definition menu_delete (fk : bool) (item_id : Z) (d : db) : response * db :=
  let d1 := delete_checkout_where_ItemID item_id d in
  after (delete_menu fk item_id d1) d1 item_deleted.

(** ** Customer CRUD *)

Definition customer_create (now : text) (f : form) (d : db) : response * db :=
  let first := strip (get_or f "first_name" []) in
  let last := strip (get_or f "last_name" []) in
  let phone_raw := strip (get_or f "phone" []) in
  if bool_decide (first = []) || bool_decide (last = [])
  then (redirect_dashboard danger names_required, d)
  else
    match int phone_raw with
    | Some phone =>
        if phone <=? 0 then (redirect_dashboard danger phone_invalid, d)
        else after (insert_user now first last phone d) d customer_added
    | None => (redirect_dashboard danger phone_invalid, d)
    end.

Definition customer_update (user_id : Z) (f : form) (d : db) : response * db :=
  let first := strip (get_or f "first_name" []) in
  let last := strip (get_or f "last_name" []) in
  let phone_raw := strip (get_or f "phone" []) in
  match select_where_ID user_id (user d) with
  | Raise e => (error_500 e, d)
  | Ok None => (abort_404, d)
  | Ok (Some _) =>
      if bool_decide (first = []) || bool_decide (last = [])
      then (redirect_dashboard danger names_required, d)
      else
        match int phone_raw with
        | Some phone =>
            if phone <=? 0 then (redirect_dashboard danger phone_invalid, d)
            else after (update_user first last phone user_id d) d customer_updated
        | None => (redirect_dashboard danger phone_invalid, d)
        end
  end.

Definition customer_delete (fk : bool) (user_id : Z) (d : db) : response * db :=
  let d1 := delete_checkout_where_UserID user_id d in
  after (delete_user fk user_id d1) d1 customer_deleted.

(** ** Order CRUD *)

(** The [try] block shared by [order_create] and [order_update]: the three
    conversions in their order, then the range of the quantity; [None] is
    the [ValueError] branch. *)
Definition order_numbers (user_id item_id qty_raw : text) : option (Z * Z * Z) :=
  user_id_i ← int user_id;
  item_id_i ← int item_id;
  qty ← int qty_raw;
  if qty <=? 0 then None else Some (user_id_i, item_id_i, qty).

(** [(... or "").strip() or None] *)
Definition or_None (s : text) : option text :=
  match s with
  | [] => None
  | _ => Some s
  end.

(** [int(item["Price"] or 0)] on the row of [SELECT Price FROM menu]. *)
Definition price_or_0 (item : Menu.row) : Z :=
  match Menu.Price item with
  | Some p => p
  | None => 0
  end.

Definition order_create (fk : bool) (now : text) (f : form) (d : db)
    : response * db :=
  let user_id := strip (get_or f "user_id" []) in
  let item_id := strip (get_or f "item_id" []) in
  let qty_raw := strip (get_or f "quantity" (lit "1")) in
  let status := strip (get_or f "status" default_status) in
  let notes := or_None (strip (get_or f "notes" [])) in
  match order_numbers user_id item_id qty_raw with
  | None => (redirect_dashboard danger order_invalid, d)
  | Some (user_id_i, item_id_i, qty) =>
      match select_where_ID item_id_i (menu d) with
      | Raise e => (error_500 e, d)
      | Ok None => (redirect_dashboard danger item_missing, d)
      | Ok (Some item) =>
          let item_price := price_or_0 item in
          let total := item_price * qty in
          after (insert_checkout fk now user_id_i qty item_id_i item_price
                   total status notes d) d order_placed
      end
  end.

Definition order_update (fk : bool) (order_id : Z) (f : form) (d : db)
    : response * db :=
  let user_id := strip (get_or f "user_id" []) in
  let item_id := strip (get_or f "item_id" []) in
  let qty_raw := strip (get_or f "quantity" (lit "1")) in
  let status := strip (get_or f "status" default_status) in
  let notes := or_None (strip (get_or f "notes" [])) in
  match select_where_ID order_id (checkout d) with
  | Raise e => (error_500 e, d)
  | Ok None => (abort_404, d)
  | Ok (Some _) =>
      match order_numbers user_id item_id qty_raw with
      | None => (redirect_dashboard danger order_invalid, d)
      | Some (user_id_i, item_id_i, qty) =>
          match select_where_ID item_id_i (menu d) with
          | Raise e => (error_500 e, d)
          | Ok None => (redirect_dashboard danger item_missing, d)
          | Ok (Some item) =>
              let item_price := price_or_0 item in
              let total := item_price * qty in
              after (update_checkout fk user_id_i qty item_id_i item_price
                       total status notes order_id d) d order_updated
          end
      end
  end.

Definition order_delete (order_id : Z) (d : db) : response * db :=
  (redirect_dashboard success order_deleted, delete_checkout order_id d).

(** ** The dashboard queries *)

(** ORDER BY ID DESC *)
Definition ID_DESC {A} : relation (Z * A) := λ a b, b.1 ≤ a.1.

#[local] Instance ID_DESC_dec {A} : RelDecision (@ID_DESC A).
Proof. intros a b. unfold ID_DESC. apply _. Defined.

Definition order_by_ID_desc {A} (t : gmap Z A) : list (Z * A) :=
  merge_sort ID_DESC (map_to_list t).

(** A row of the joined order listing. *)
Module Order.
Record row := Row {
  OrderID : Z;
  Quantity : option Z;
  ItemPrice : option Z;
  TotalPrice : option Z;
  Status : option text;
  Notes : option text;
  CreatedAt : option text;
  UserID : Z;
  FirstName : option text;
  LastName : option text;
  Phone : option Z;
  ItemID : Z;
  ItemName : option text;
  Category : option text }.
End Order.

(** FROM checkout c JOIN user u ON u.ID = c.UserID JOIN menu m ON m.ID = c.ItemID:
    an order whose customer or item is missing has no row in the join. *)
Definition join_order (d : db) (c : Z * Checkout.row) : option Order.row :=
  uid ← Checkout.UserID c.2;
  u ← user d !! uid;
  iid ← Checkout.ItemID c.2;
  m ← menu d !! iid;
  Some (Order.Row c.1 (Checkout.quantity c.2) (Checkout.ItemPrice c.2)
          (Checkout.TotalPrice c.2) (Checkout.Status c.2) (Checkout.Notes c.2)
          (Checkout.CreatedAt c.2) uid (User.FirstName u) (User.LastName u)
          (User.Phone u) iid (Menu.Name m) (Menu.Category m)).

(** The rows of a table in the order a scan without ORDER BY reads them:
    by ascending key. *)
Definition table_scan {A} (t : gmap Z A) : list (Z * A) :=
  reverse (order_by_ID_desc t).

(** SUM(x) over an integer column, row after row: NULLs are skipped, the
    sum of no value is NULL, and the running sum is an integer of the
    engine: once an addition leaves the 64 bits the aggregate fails with
    "integer overflow", whatever follows. *)
Fixpoint SUM_from (acc : option Z) (xs : list (option Z)) : result (option Z) :=
  match xs with
  | [] => Ok acc
  | None :: xs' => SUM_from acc xs'
  | Some v :: xs' =>
      match add64 (default 0 acc) v with
      | Ok s => SUM_from (Some s) xs'
      | Raise e => Raise e
      end
  end.

Definition SUM (xs : list (option Z)) : result (option Z) := SUM_from None xs.

Definition COALESCE (x : option Z) (y : Z) : Z :=
  match x with
  | Some v => v
  | None => y
  end.

(** SELECT COUNT( * ) FROM t *)
Definition COUNT {A} (t : gmap Z A) : Z := Z.of_nat (size t).

(** The four counters. The query of the revenue is the only one of
    [fetch_dashboard_data] that can raise, and it is the last: [revenue]
    holds its value or what it raised. *)
Record stats := Stats {
  customers : Z;
  items : Z;
  orders : Z;
  revenue : result Z }.

(** The values of the seven queries. [fetch_dashboard_data] returns them
    when the last one returned, and raises what it raised otherwise. *)
Definition fetch_dashboard_data (d : db)
    : list (Z * Menu.row) * list (Z * User.row) * list Order.row * stats :=
  let items := order_by_ID_desc (menu d) in
  let customers := order_by_ID_desc (user d) in
  let orders := omap (join_order d) (order_by_ID_desc (checkout d)) in
  let total_customers := COUNT (user d) in
  let total_items := COUNT (menu d) in
  let total_orders := COUNT (checkout d) in
  let total_revenue :=
    (λ s, COALESCE s 0)
      <$> SUM (Checkout.TotalPrice <$> (table_scan (checkout d)).*2) in
  (items, customers, orders,
   Stats total_customers total_items total_orders total_revenue).

(** GET /dashboard: the values handed to the template, or the exception
    that ends the request with the 500 page. *)
Definition dashboard (d : db)
    : result (list (Z * Menu.row) * list (Z * User.row) * list Order.row * stats) :=
  match revenue (fetch_dashboard_data d).2 with
  | Ok _ => Ok (fetch_dashboard_data d)
  | Raise e => Raise e
  end.

(** ** The routes *)

Inductive request :=
  | POST_menu (f : form)
  | POST_menu_update (item_id : Z) (f : form)
  | POST_menu_delete (item_id : Z)
  | POST_customers (f : form)
  | POST_customers_update (user_id : Z) (f : form)
  | POST_customers_delete (user_id : Z)
  | POST_orders (f : form)
  | POST_orders_update (order_id : Z) (f : form)
  | POST_orders_delete (order_id : Z).

(** The view function of each route; [fk] is the schema's choice and
    [now] the clock of the storage engine at the request. *)
Definition handler (fk : bool) (now : text) (r : request) (d : db)
    : response * db :=
  match r with
  | POST_menu f => menu_create f d
  | POST_menu_update item_id f => menu_update item_id f d
  | POST_menu_delete item_id => menu_delete fk item_id d
  | POST_customers f => customer_create now f d
  | POST_customers_update user_id f => customer_update user_id f d
  | POST_customers_delete user_id => customer_delete fk user_id d
  | POST_orders f => order_create fk now f d
  | POST_orders_update order_id f => order_update fk order_id f d
  | POST_orders_delete order_id => order_delete order_id d
  end.

(** The identity in the URL of a request. *)
Definition route_identity (r : request) : option Z :=
  match r with
  | POST_menu_update id _ | POST_menu_delete id
  | POST_customers_update id _ | POST_customers_delete id
  | POST_orders_update id _ | POST_orders_delete id => Some id
  | POST_menu _ | POST_customers _ | POST_orders _ => None
  end.

(** A rule with [<int:id>] matches digits only: a negative identity is
    the URL of no route and is answered 404 by the router. The first
    statement of each of the six handlers with an identity binds it, so
    that one beyond the integers of the engine ends the request there. *)
Definition routed (id : Z) (d : db) (view : response * db) : response * db :=
  if id <? 0 then (abort_404, d)
  else if int64 id then view
  else (error_500 OverflowError, d).

(** The URL map of the application. *)
Definition serve (fk : bool) (now : text) (r : request) (d : db)
    : response * db :=
  match route_identity r with
  | Some id => routed id d (handler fk now r d)
  | None => handler fk now r d
  end.
Arguments serve _ _ !_ _ /.

(** ** Schema migration

    [init_db] works on the schema itself, so here a table is its list of
    columns together with its rows, a row giving a value to column names.
    Tables are found by the name the statements spell; column names are
    compared as the engine compares them, without regard to ASCII case. *)

Module Migration.

Inductive value :=
  | NULL
  | INTEGER (z : Z)
  | TEXT (t : text).

#[export] Instance value_eq_dec : EqDecision value.
Proof. solve_decision. Defined.

Record column := Column {
  name : string;
  dflt_value : value }.

Record table := Table {
  columns : list column;
  rows : list (gmap string value) }.

Abbreviation store := (gmap string table).

Definition lower_ascii (a : ascii) : ascii :=
  let n := nat_of_ascii a in
  if ((65 <=? n) && (n <=? 90))%nat then ascii_of_nat (n + 32) else a.

Fixpoint lower (s : string) : string :=
  match s with
  | EmptyString => EmptyString
  | String a s' => String (lower_ascii a) (lower s')
  end.

(** The column a statement means by [c]. *)
Definition resolve (c : string) (cols : list column) : option column :=
  find (λ col, bool_decide (lower (name col) = lower c)) cols.

(** The state of the database file threaded through the statements, and the
    exception that ends them: what was committed before stays. *)
Definition proc (A : Type) : Type := store → result A * store.

#[export] Instance proc_ret : MRet proc := λ A a d, (Ok a, d).

#[export] Instance proc_bind : MBind proc := λ A B k m d,
  match m d with
  | (Ok a, d') => k a d'
  | (Raise e, d') => (Raise e, d')
  end.

(** [query(sql)] *)
Definition query {A} (q : store → A) : proc A := λ d, (Ok (q d), d).

(** [execute(sql)]: the statement commits or raises. *)
Definition execute (stmt : store → result store) : proc unit := λ d,
  match stmt d with
  | Ok d' => (Ok (), d')
  | Raise e => (Raise e, d)
  end.

(** PRAGMA table_info(t): one row per column, none for a missing table. *)
Definition table_info (t : string) (d : store) : list column :=
  match d !! t with
  | Some tb => columns tb
  | None => []
  end.

(** ALTER TABLE t ADD COLUMN c ... DEFAULT v: the rows already there read
    the default. *)
Definition ALTER_TABLE_ADD_COLUMN (t c : string) (v : value) (d : store)
    : result store :=
  match d !! t with
  | None => Raise OperationalError
  | Some tb =>
      match resolve c (columns tb) with
      | Some _ => Raise OperationalError
      | None =>
          Ok (<[t := Table (columns tb ++ [Column c v])
                           (insert c v <$> rows tb)]> d)
      end
  end.

(** UPDATE t SET c = COALESCE(c, v) *)
Definition UPDATE_SET_COALESCE (t c : string) (v : value) (d : store)
    : result store :=
  match d !! t with
  | None => Raise OperationalError
  | Some tb =>
      match resolve c (columns tb) with
      | None => Raise OperationalError
      | Some col =>
          Ok (<[t := Table (columns tb)
                       ((λ r, match r !! name col with
                              | Some NULL | None => <[name col := v]> r
                              | Some _ => r
                              end) <$> rows tb)]> d)
      end
  end.

(** Modelled from the spec: [schema.sql] is missing; "create the base
    tables if absent" (the docstring of [init_db]: "Ensures base tables
    exist"). The file is the list of its tables, each with its columns. *)
Definition executescript (schema_sql : list (string * list column))
    (d : store) : store :=
  foldl (λ d t, match d !! t.1 with
                | Some _ => d
                | None => <[t.1 := Table t.2 []]> d
                end) d schema_sql.

Local Open Scope string_scope.

Section init_db.
(** [schema.sql] when [schema_path.exists()], and [datetime('now')]. *)
Variable schema_sql : option (list (string * list column)).
Variable now : text.

Definition has_column (table col : string) : proc bool :=
  cols ← query (table_info table);
  mret (bool_decide (col ∈ name <$> cols)).

Definition unless (b : bool) (m : proc unit) : proc unit :=
  if b then mret () else m.

Definition init_db : proc unit :=
  (* 2) Ensure core tables exist *)
  _ ← match schema_sql with
      | Some script => execute (λ d, Ok (executescript script d))
      | None => mret ()
      end;
  (* 3) Migrations: add columns if missing *)
  (* user *)
  b ← has_column "user" "CreatedAt";
  _ ← unless b (
    _ ← execute (ALTER_TABLE_ADD_COLUMN "user" "CreatedAt" NULL);
    execute (UPDATE_SET_COALESCE "user" "CreatedAt" (TEXT now)));
  (* menu *)
  b ← has_column "menu" "Category";
  _ ← unless b (
    execute (ALTER_TABLE_ADD_COLUMN "menu" "Category" (TEXT default_category)));
  b ← has_column "menu" "IsAvailable";
  _ ← unless b (
    execute (ALTER_TABLE_ADD_COLUMN "menu" "IsAvailable" (INTEGER 1)));
  (* checkout *)
  b ← has_column "checkout" "CreatedAt";
  _ ← unless b (
    _ ← execute (ALTER_TABLE_ADD_COLUMN "checkout" "CreatedAt" NULL);
    execute (UPDATE_SET_COALESCE "checkout" "CreatedAt" (TEXT now)));
  b ← has_column "checkout" "Status";
  _ ← unless b (
    execute (ALTER_TABLE_ADD_COLUMN "checkout" "Status" (TEXT default_status)));
  b ← has_column "checkout" "Notes";
  unless b (
    execute (ALTER_TABLE_ADD_COLUMN "checkout" "Notes" NULL)).
End init_db.

(** One migration of [init_db]: the column [c] of table [t] with its
    default [v], added when [has_column] does not find it, and then filled
    with [w] where the source runs the UPDATE after it. *)
Definition add_if_missing (m : string * string * value * option value)
    : proc unit :=
  let '(t, c, v, backfill) := m in
  b ← has_column t c;
  unless b (
    match backfill with
    | Some w =>
        _ ← execute (ALTER_TABLE_ADD_COLUMN t c v);
        execute (UPDATE_SET_COALESCE t c w)
    | None => execute (ALTER_TABLE_ADD_COLUMN t c v)
    end).

Fixpoint add_all (ms : list (string * string * value * option value))
    : proc unit :=
  match ms with
  | [] => mret ()
  | m :: ms' => _ ← add_if_missing m; add_all ms'
  end.

(** The six migrations of [init_db], in its order. *)
Definition migrations (now : text)
    : list (string * string * value * option value) :=
  [ ("user", "CreatedAt", NULL, Some (TEXT now));
    ("menu", "Category", TEXT default_category, None);
    ("menu", "IsAvailable", INTEGER 1, None);
    ("checkout", "CreatedAt", NULL, Some (TEXT now));
    ("checkout", "Status", TEXT default_status, None);
    ("checkout", "Notes", NULL, None) ].

(** [tb'] has the columns of [tb] first and in their order, as many rows,
    and in every row the value [tb] had in each of its columns. *)
Definition table_extends (tb tb' : table) : Prop :=
  columns tb `prefix_of` columns tb'
  ∧ Forall2 (λ r r', ∀ c, c ∈ name <$> columns tb → r' !! c = r !! c)
            (rows tb) (rows tb').

(** Nothing of [d] is lost in [d']: every table is still there, extended. *)
Definition extends (d d' : store) : Prop :=
  ∀ t tb, d !! t = Some tb → ∃ tb', d' !! t = Some tb' ∧ table_extends tb tb'.

(** [has_column] finds the column [c] of table [t]. *)
Definition present (t c : string) (d : store) : Prop :=
  c ∈ name <$> table_info t d.

(** Two migrations of the same column of the same table, whatever they
    fill in. *)
Definition same_columns (m m' : string * string * value * option value) : Prop :=
  m.1.1.1 = m'.1.1.1 ∧ m.1.1.2 = m'.1.1.2.

(** A database from before the migrations: the three tables with their
    first columns, and a row in each. *)
Definition legacy_store : store :=
  {[ "user" := Table [Column "ID" NULL; Column "FirstName" NULL;
                      Column "LastName" NULL; Column "Phone" NULL]
                 [ {[ "ID" := INTEGER 1; "FirstName" := TEXT (lit "Ali");
                      "LastName" := TEXT (lit "Rezaei");
                      "Phone" := INTEGER 9121234567 ]} ];
     "menu" := Table [Column "ID" NULL; Column "Name" NULL; Column "Price" NULL]
                 [ {[ "ID" := INTEGER 1; "Name" := TEXT (lit "Tea");
                      "Price" := INTEGER 15000 ]} ];
     "checkout" := Table [Column "ID" NULL; Column "UserID" NULL;
                          Column "quantity" NULL; Column "ItemID" NULL;
                          Column "ItemPrice" NULL; Column "TotalPrice" NULL]
                 [ {[ "ID" := INTEGER 1; "UserID" := INTEGER 1;
                      "quantity" := INTEGER 3; "ItemID" := INTEGER 1;
                      "ItemPrice" := INTEGER 15000;
                      "TotalPrice" := INTEGER 45000 ]} ] ]}.

End Migration.

(** ** The vocabulary of the claims *)

(** A numeric field is rejected when it is no integer or lies below [lo]. *)
Definition number_rejected (lo : Z) (n : option Z) : Prop :=
  match n with
  | Some v => v < lo
  | None => True
  end.

(** The inputs validation rejects: an empty required string, a Price, Phone
    or Quantity that is no integer or out of range. *)
Definition invalid_input (r : request) : Prop :=
  match r with
  | POST_menu f | POST_menu_update _ f =>
      strip (get_or f "name" []) = []
      ∨ number_rejected 0 (int (strip (get_or f "price" (lit "0"))))
  | POST_customers f | POST_customers_update _ f =>
      strip (get_or f "first_name" []) = []
      ∨ strip (get_or f "last_name" []) = []
      ∨ number_rejected 1 (int (strip (get_or f "phone" [])))
  | POST_orders f | POST_orders_update _ f =>
      number_rejected 1 (int (strip (get_or f "quantity" (lit "1"))))
  | POST_menu_delete _ | POST_customers_delete _ | POST_orders_delete _ => False
  end.

(** An identity that a URL can name and the engine can hold. *)
Definition routable (id : Z) : bool := (0 <=? id) && int64 id.

(** A text that [int()] takes under every setting of the interpreter's
    limit: it has no more characters than the limit allows digits. *)
Definition within_limit (s : text) : Prop :=
  (length s ≤ int_max_str_digits)%nat.

(** The menu row the order form names, if there is one. *)
Definition referenced_item (f : form) (d : db) : option Menu.row :=
  item_id ← int (strip (get_or f "item_id" []));
  menu d !! item_id.

(** The customer row the order form names, if there is one. *)
Definition referenced_customer (f : form) (d : db) : option User.row :=
  user_id ← int (strip (get_or f "user_id" []));
  user d !! user_id.



(** The database of the specification's example scenario: customer 1,
    menu item 1 priced 15000 and order 1 for three of them. *)
Definition example_db : db :=
  Db {[ 1 := User.Row (Some (lit "Ali")) (Some (lit "Rezaei")) (Some 9121234567)
                      (Some (lit "2024-01-01 10:00:00")) ]}
     {[ 1 := Menu.Row (Some (lit "Tea")) (Some 15000) (Some default_category)
                      (Some 1) ]}
     {[ 1 := Checkout.Row (Some 1) (Some 3) (Some 1) (Some 15000) (Some 45000)
                          (Some default_status) None
                          (Some (lit "2024-01-01 10:05:00")) ]}.

(** The total price an order row counts for in the revenue. *)
Definition total_of (o : Checkout.row) : Z := default 0 (Checkout.TotalPrice o).


(** ** Properties of the tables a request may keep *)

(** Every foreign key of every order has its parent row. *)
Definition integrity (d : db) : Prop :=
  ∀ k o, checkout d !! k = Some o →
    references (Checkout.UserID o) (user d) = true
    ∧ references (Checkout.ItemID o) (menu d) = true.

(** The total of an order is its item price times its quantity. *)
Definition priced (o : Checkout.row) : Prop :=
  Checkout.TotalPrice o
  = (p ← Checkout.ItemPrice o; q ← Checkout.quantity o; Some (p * q)).

(** The routes that insert a row. *)
Definition creates (r : request) : bool :=
  match r with
  | POST_menu _ | POST_customers _ | POST_orders _ => true
  | _ => false
  end.

(** The routes that write a row of [checkout]. *)
Definition writes_order (r : request) : bool :=
  match r with
  | POST_orders _ | POST_orders_update _ _ => true
  | _ => false
  end.

(** The request that deletes the row a create request [r] would insert
    into [d], when a URL can name that row. *)
Definition undo (r : request) (d : db) : option request :=
  match r with
  | POST_menu _ =>
      let id := next_rowid (menu d) in
      if routable id then Some (POST_menu_delete id) else None
  | POST_customers _ =>
      let id := next_rowid (user d) in
      if routable id then Some (POST_customers_delete id) else None
  | POST_orders _ =>
      let id := next_rowid (checkout d) in
      if routable id then Some (POST_orders_delete id) else None
  | _ => None
  end.


(** ** Properties of the schema a migration may meet *)

Module MigrationTerms.
Import Migration.

(** What a row that was there reads in a column just added with default
    [v], after the UPDATE that follows where the source has one. *)
Definition filled (v : value) (backfill : option value) : value :=
  match backfill, v with
  | Some w, NULL => w
  | _, _ => v
  end.

(** The table of a migration is there, and its column is there under its
    exact name or can be added: no column has that name up to case. *)
Definition migratable (d : store) (m : string * string * value * option value)
    : Prop :=
  ∃ tb, d !! m.1.1.1 = Some tb
        ∧ (m.1.1.2 ∈ name <$> columns tb ∨ resolve m.1.1.2 (columns tb) = None).

(** The table and, up to case, the column of a migration. *)
Definition target (m : string * string * value * option value)
    : string * string :=
  (m.1.1.1, lower m.1.1.2).

(** The database [init_db] starts its migrations on. *)
Definition after_script (schema_sql : option (list (string * list column)))
    (d : store) : store :=
  match schema_sql with
  | Some script => executescript script d
  | None => d
  end.

End MigrationTerms.


(** ** The [money] template filter *)

Module Money.
Import Migration.

Fixpoint uint_digits (u : Decimal.uint) : text :=
  match u with
  | Decimal.Nil => []
  | Decimal.D0 u' => 0x30%N :: uint_digits u'
  | Decimal.D1 u' => 0x31%N :: uint_digits u'
  | Decimal.D2 u' => 0x32%N :: uint_digits u'
  | Decimal.D3 u' => 0x33%N :: uint_digits u'
  | Decimal.D4 u' => 0x34%N :: uint_digits u'
  | Decimal.D5 u' => 0x35%N :: uint_digits u'
  | Decimal.D6 u' => 0x36%N :: uint_digits u'
  | Decimal.D7 u' => 0x37%N :: uint_digits u'
  | Decimal.D8 u' => 0x38%N :: uint_digits u'
  | Decimal.D9 u' => 0x39%N :: uint_digits u'
  end.

(** A comma after every third digit that has a digit after it; the digits
    come from the right. *)
Fixpoint group3 (digits_from_right : text) : text :=
  match digits_from_right with
  | a :: b :: c :: ((_ :: _) as more) => a :: b :: c :: 0x2C%N :: group3 more
  | _ => digits_from_right
  end.

(** [f"{n:,}"] *)
Definition format_thousands (n : Z) : text :=
  match Z.to_int n with
  | Decimal.Pos u => rev (group3 (rev (uint_digits u)))
  | Decimal.Neg u => 0x2D%N :: rev (group3 (rev (uint_digits u)))
  end.

(** [money(v)] on what a row or the counters hand to a template: [int(v)]
    is [v] for an integer, reads a string, and raises on [None]; whatever it
    raises is swallowed and [v] returned as it came. The interpreter's
    limit on the digits of a literal, which is kept out of [int], holds for
    the formatting as well: a number or a text beyond it comes back from
    [money] as it came. The integers of a row or of a counter are those of
    the engine and far below it. *)
Definition money (v : value) : value :=
  match v with
  | INTEGER n => TEXT (format_thousands n)
  | TEXT s =>
      match int s with
      | Some n => TEXT (format_thousands n)
      | None => v
      end
  | NULL => v
  end.

(** The text without its thousands separators. *)
Definition without_commas (s : text) : text :=
  filter (λ c, c ≠ 0x2C%N) s.

(** The ASCII digits. *)
Definition is_digit (c : N) : Prop := (0x30 ≤ c ≤ 0x39)%N.

End Money.

(** * Facts *)

(** ** The runtime on examples *)

Example int_plain : int (lit "15000") = Some 15000.
Proof. reflexivity. Qed.

Example int_negative : int (lit "-5") = Some (-5).
Proof. reflexivity. Qed.

Example int_underscore : int (lit "1_000") = Some 1000.
Proof. reflexivity. Qed.

Example int_not_a_number : int (lit "12a") = None ∧ int (lit "") = None
  ∧ int (lit "1__0") = None ∧ int (lit "_1") = None ∧ int (lit "- 1") = None.
Proof. repeat split; reflexivity. Qed.

(** Persian digits are digits: [int("۱۵")] is 15. *)
Example int_persian : int [0x6F1; 0x6F5]%N = Some 15.
Proof. reflexivity. Qed.

Example strip_blank : strip (lit "  Tea ") = lit "Tea" ∧ strip (lit "   ") = [].
Proof. split; reflexivity. Qed.

(** ** Keys *)

Lemma max_list_ge (l : list Z) k :
  k ∈ l →
  ∃ x, foldr (λ k acc, Some (match acc with Some a => Z.max k a | None => k end))
             None l = Some x ∧ k ≤ x.
Proof.
  induction l as [|y l IH]; intros Hk.
  - by apply elem_of_nil in Hk.
  - apply elem_of_cons in Hk as [->|Hk]; simpl.
    + destruct (foldr _ None l); eexists; split; try done; lia.
    + destruct (IH Hk) as (x & -> & Hx). eexists; split; [done | lia].
Qed.

Lemma max_rowid_ge {A} (t : gmap Z A) k a :
  t !! k = Some a → ∃ x, max_rowid t = Some x ∧ k ≤ x.
Proof.
  intros Hk. apply max_list_ge.
  apply list_elem_of_fmap. exists (k, a). split; [done |].
  by apply elem_of_map_to_list.
Qed.

(** The key an INSERT assigns is not in use. *)
Lemma next_rowid_fresh {A} (t : gmap Z A) : t !! next_rowid t = None.
Proof.
  destruct (t !! next_rowid t) as [a|] eqn:Hk; [| done].
  apply max_rowid_ge in Hk as (x & Hx & Hle).
  unfold next_rowid in Hle. rewrite Hx in Hle. lia.
Qed.

Lemma next_rowid_empty {A} : next_rowid (∅ : gmap Z A) = 1.
Proof. unfold next_rowid, max_rowid. by rewrite map_to_list_empty. Qed.

(** ** The integers of the engine *)

Lemma int64_spec z : int64 z = true ↔ - 2 ^ 63 ≤ z < 2 ^ 63.
Proof. unfold int64. rewrite andb_true_iff, Z.leb_le, Z.ltb_lt. done. Qed.

Lemma bound_Ok {A} params (run : result A) x :
  bound params run = Ok x ↔ forallb int64 params = true ∧ run = Ok x.
Proof.
  unfold bound. destruct (forallb int64 params); split; intros H;
    [by split | by destruct H | done | by destruct H].
Qed.

Lemma bound_in_range {A} params (run : result A) :
  forallb int64 params = true → bound params run = run.
Proof. unfold bound. by intros ->. Qed.

Lemma bound_out_of_range {A} params (run : result A) :
  forallb int64 params = false → bound params run = Raise OverflowError.
Proof. unfold bound. by intros ->. Qed.

Lemma select_where_ID_in_range {A} id (t : gmap Z A) :
  int64 id = true → select_where_ID id t = Ok (t !! id).
Proof.
  intros H. unfold select_where_ID. apply bound_in_range. simpl. by rewrite H.
Qed.

Lemma select_where_ID_Ok {A} id (t : gmap Z A) x :
  select_where_ID id t = Ok x → int64 id = true ∧ x = t !! id.
Proof.
  unfold select_where_ID. intros [Hid Hx]%bound_Ok. simpl in Hid.
  rewrite andb_true_r in Hid. split; [done | congruence].
Qed.

Lemma select_where_ID_Raise {A} id (t : gmap Z A) e :
  select_where_ID id t = Raise e → int64 id = false ∧ e = OverflowError.
Proof.
  unfold select_where_ID, bound. simpl. rewrite andb_true_r.
  destruct (int64 id); [done |]. intros [= <-]. done.
Qed.

(** ** Routing *)

Lemma routed_routable id d h : routable id = true → routed id d h = h.
Proof.
  unfold routable, routed. intros [Hpos ->]%andb_true_iff.
  apply Z.leb_le in Hpos. by destruct (Z.ltb_spec id 0); [lia |].
Qed.


(** A request the router or the first binding stops leaves everything as
    it was. *)
Lemma routed_cases id d h :
  routable id = true ∧ routed id d h = h
  ∨ routable id = false
    ∧ (routed id d h = (abort_404, d)
       ∨ routed id d h = (error_500 OverflowError, d)).
Proof.
  unfold routable, routed.
  destruct (Z.ltb_spec id 0), (int64 id) eqn:E; simpl;
    try (right; split; [by rewrite ?andb_false_r; try (apply andb_false_iff; left; apply Z.leb_gt) | by eauto]).
  left. split; [| done]. apply andb_true_iff. split; [by apply Z.leb_le | done].
Qed.

(** A request is answered by its view function unless the router or the
    first binding stops it; then nothing has changed. *)
Lemma serve_cases fk now r d :
  serve fk now r d = handler fk now r d
  ∨ serve fk now r d = (abort_404, d)
  ∨ serve fk now r d = (error_500 OverflowError, d).
Proof.
  unfold serve. destruct (route_identity r) as [id|]; [| by left].
  destruct (routed_cases id d (handler fk now r d)) as [[_ ->] | [_ [-> | ->]]];
    eauto.
Qed.

Lemma serve_routable fk now r d id :
  route_identity r = Some id → routable id = true →
  serve fk now r d = handler fk now r d.
Proof. unfold serve. intros -> Hr. by apply routed_routable. Qed.

Lemma serve_create fk now r d :
  route_identity r = None → serve fk now r d = handler fk now r d.
Proof. unfold serve. by intros ->. Qed.

(** ** Validation *)

Lemma after_not_danger r d msg m :
  (after r d msg).1 ≠ redirect_dashboard danger m.
Proof. by destruct r. Qed.

Lemma order_numbers_quantity u i q :
  number_rejected 1 (int q) → order_numbers u i q = None.
Proof.
  unfold order_numbers, number_rejected. intros Hq.
  destruct (int u); [| done]. destruct (int i); [| done]. simpl.
  destruct (int q) as [v|]; [| done]. simpl.
  destruct (Z.leb_spec v 0); [done | lia].
Qed.

Lemma order_numbers_Some u i q a b c :
  order_numbers u i q = Some (a, b, c) ↔
  int u = Some a ∧ int i = Some b ∧ int q = Some c ∧ 0 < c.
Proof.
  unfold order_numbers.
  destruct (int u), (int i), (int q) as [v|]; simpl;
    try (split; [done | by intros (? & ? & ? & ?)]).
  destruct (Z.leb_spec v 0); split.
  - done.
  - intros (? & ? & ? & ?). simplify_eq. lia.
  - intros. simplify_eq. done.
  - intros (? & ? & ? & ?). by simplify_eq.
Qed.

Lemma menu_create_rejects f d :
  strip (get_or f "name" []) = []
  ∨ number_rejected 0 (int (strip (get_or f "price" (lit "0")))) →
  validation_failed (menu_create f d).1 ∧ (menu_create f d).2 = d.
Proof.
  unfold menu_create, number_rejected, validation_failed.
  intros [Hn | Hp].
  - rewrite Hn. simpl. eauto.
  - case_bool_decide; [simpl; eauto |].
    destruct (int _) as [p|]; [| simpl; eauto].
    destruct (Z.ltb_spec p 0); [simpl; eauto | lia].
Qed.

Lemma menu_update_rejects item_id f d :
  strip (get_or f "name" []) = []
  ∨ number_rejected 0 (int (strip (get_or f "price" (lit "0")))) →
  (menu_update item_id f d).2 = d
  ∧ (int64 item_id = true → is_Some (menu d !! item_id) →
     validation_failed (menu_update item_id f d).1)
  ∧ (int64 item_id = true → menu d !! item_id = None →
     (menu_update item_id f d).1 = abort_404)
  ∧ (int64 item_id = false →
     (menu_update item_id f d).1 = error_500 OverflowError).
Proof.
  unfold menu_update, number_rejected, validation_failed.
  intros H. destruct (select_where_ID item_id (menu d)) as [[it|]|e] eqn:Hsel.
  - apply select_where_ID_Ok in Hsel as [Hid Hit]. rewrite Hid, <- Hit.
    destruct H as [Hn | Hp].
    + rewrite Hn. simpl. split_and!; eauto; done.
    + case_bool_decide; [simpl; split_and!; eauto; done |].
      destruct (int _) as [p|]; [| simpl; split_and!; eauto; done].
      destruct (Z.ltb_spec p 0); [simpl; split_and!; eauto; done | lia].
  - apply select_where_ID_Ok in Hsel as [Hid Hit]. rewrite Hid, <- Hit.
    simpl. split_and!; try done; by intros _ [].
  - apply select_where_ID_Raise in Hsel as [Hid ->]. rewrite Hid.
    by simpl.
Qed.

Lemma customer_create_rejects now f d :
  strip (get_or f "first_name" []) = []
  ∨ strip (get_or f "last_name" []) = []
  ∨ number_rejected 1 (int (strip (get_or f "phone" []))) →
  validation_failed (customer_create now f d).1 ∧ (customer_create now f d).2 = d.
Proof.
  unfold customer_create, number_rejected, validation_failed.
  intros H.
  destruct (bool_decide (strip (get_or f "first_name" []) = [])
            || bool_decide (strip (get_or f "last_name" []) = [])) eqn:Hb;
    [simpl; eauto |].
  apply orb_false_elim in Hb as [H1%bool_decide_eq_false H2%bool_decide_eq_false].
  destruct H as [? | [? | Hp]]; [done | done |].
  destruct (int _) as [p|]; [| simpl; eauto].
  destruct (Z.leb_spec p 0); [simpl; eauto | lia].
Qed.

Lemma customer_update_rejects user_id f d :
  strip (get_or f "first_name" []) = []
  ∨ strip (get_or f "last_name" []) = []
  ∨ number_rejected 1 (int (strip (get_or f "phone" []))) →
  (customer_update user_id f d).2 = d
  ∧ (int64 user_id = true → is_Some (user d !! user_id) →
     validation_failed (customer_update user_id f d).1)
  ∧ (int64 user_id = true → user d !! user_id = None →
     (customer_update user_id f d).1 = abort_404)
  ∧ (int64 user_id = false →
     (customer_update user_id f d).1 = error_500 OverflowError).
Proof.
  unfold customer_update, number_rejected, validation_failed.
  intros H. destruct (select_where_ID user_id (user d)) as [[u|]|e] eqn:Hsel.
  - apply select_where_ID_Ok in Hsel as [Hid Hu]. rewrite Hid, <- Hu.
    destruct (bool_decide (strip (get_or f "first_name" []) = [])
              || bool_decide (strip (get_or f "last_name" []) = [])) eqn:Hb;
      [simpl; split_and!; eauto; done |].
    apply orb_false_elim in Hb as [H1%bool_decide_eq_false H2%bool_decide_eq_false].
    destruct H as [? | [? | Hp]]; [done | done |].
    destruct (int _) as [p|]; [| simpl; split_and!; eauto; done].
    destruct (Z.leb_spec p 0); [simpl; split_and!; eauto; done | lia].
  - apply select_where_ID_Ok in Hsel as [Hid Hu]. rewrite Hid, <- Hu.
    simpl. split_and!; try done; by intros _ [].
  - apply select_where_ID_Raise in Hsel as [Hid ->]. rewrite Hid.
    by simpl.
Qed.

(** A response with a danger flash never comes with a write. *)
Lemma danger_without_write fk now r d m :
  (serve fk now r d).1 = redirect_dashboard danger m → (serve fk now r d).2 = d.
Proof.
  destruct r; simpl;
    unfold routed, menu_create, menu_update, menu_delete, customer_create,
      customer_update, customer_delete, order_create, order_update,
      order_delete;
    intros H; repeat case_match; simplify_eq/=; try done;
    by apply after_not_danger in H.
Qed.

Lemma order_create_rejects fk now f d :
  number_rejected 1 (int (strip (get_or f "quantity" (lit "1")))) →
  (order_create fk now f d) = (redirect_dashboard danger order_invalid, d).
Proof.
  intros H. unfold order_create.
  by rewrite (order_numbers_quantity _ _ _ H).
Qed.

Lemma order_update_rejects fk order_id f d :
  number_rejected 1 (int (strip (get_or f "quantity" (lit "1")))) →
  (order_update fk order_id f d) =
    (match select_where_ID order_id (checkout d) with
     | Ok (Some _) => redirect_dashboard danger order_invalid
     | Ok None => abort_404
     | Raise e => error_500 e
     end, d).
Proof.
  intros H. unfold order_update.
  rewrite (order_numbers_quantity _ _ _ H).
  by destruct (select_where_ID order_id (checkout d)) as [[?|]|?].
Qed.

Lemma routed_unchanged id d h :
  h.2 = d → ¬ succeeded h.1 →
  (routed id d h).2 = d ∧ ¬ succeeded (routed id d h).1.
Proof.
  intros Hd Hs. destruct (routed_cases id d h) as [[_ ->] | [_ [-> | ->]]];
    [done | |]; (split; [done | by intros [? ?]]).
Qed.

(** C3. Whenever validation rejects the input of a create or update of a
    menu item, a customer or an order (an empty required string, a Price,
    Phone or Quantity that is no integer or out of range), or the response
    is a validation failure, the database after the request is the database
    before it, and the response is not a success. *)
Theorem rejected_input_leaves_store fk now r d :
  invalid_input r ∨ validation_failed (serve fk now r d).1 →
  (serve fk now r d).2 = d ∧ ¬ succeeded (serve fk now r d).1.
Proof.
  intros [H | [m H]].
  - destruct r; simpl in *; try done.
    + destruct (menu_create_rejects f d H) as [[m ->] ->].
      split; [done | by intros [? ?]].
    + apply routed_unchanged;
        destruct (menu_update_rejects item_id f d H) as (Hd & Hs & Hn & Hr);
        [done |].
      destruct (int64 item_id) eqn:Hid; [| rewrite Hr; [by intros [? ?] | done]].
      destruct (menu d !! item_id) eqn:E.
      * destruct Hs as [m ->]; [done | done | by intros [? ?]].
      * rewrite Hn; [by intros [? ?] | done | done].
    + destruct (customer_create_rejects now f d H) as [[m ->] ->].
      split; [done | by intros [? ?]].
    + apply routed_unchanged;
        destruct (customer_update_rejects user_id f d H) as (Hd & Hs & Hn & Hr);
        [done |].
      destruct (int64 user_id) eqn:Hid; [| rewrite Hr; [by intros [? ?] | done]].
      destruct (user d !! user_id) eqn:E.
      * destruct Hs as [m ->]; [done | done | by intros [? ?]].
      * rewrite Hn; [by intros [? ?] | done | done].
    + rewrite (order_create_rejects _ _ _ _ H). split; [done | by intros [? ?]].
    + apply routed_unchanged; rewrite (order_update_rejects _ _ _ _ H);
        [done |].
      by destruct (select_where_ID order_id (checkout d)) as [[?|]|?];
        intros [? ?].
  - split; [by eapply danger_without_write |].
    rewrite H. by intros [? ?].
Qed.

(** ** Orders *)

Lemma order_create_accepts fk now f d u i q item :
  order_numbers (strip (get_or f "user_id" [])) (strip (get_or f "item_id" []))
    (strip (get_or f "quantity" (lit "1"))) = Some (u, i, q) →
  int64 i = true →
  menu d !! i = Some item →
  order_create fk now f d =
    after (insert_checkout fk now u q i (price_or_0 item) (price_or_0 item * q)
             (strip (get_or f "status" default_status))
             (or_None (strip (get_or f "notes" []))) d) d order_placed.
Proof.
  intros Hn Hr Hi. unfold order_create.
  by rewrite Hn, (select_where_ID_in_range _ _ Hr), Hi.
Qed.

Lemma order_update_accepts fk order_id f d old u i q item :
  int64 order_id = true →
  checkout d !! order_id = Some old →
  order_numbers (strip (get_or f "user_id" [])) (strip (get_or f "item_id" []))
    (strip (get_or f "quantity" (lit "1"))) = Some (u, i, q) →
  int64 i = true →
  menu d !! i = Some item →
  order_update fk order_id f d =
    after (update_checkout fk u q i (price_or_0 item) (price_or_0 item * q)
             (strip (get_or f "status" default_status))
             (or_None (strip (get_or f "notes" []))) order_id d) d order_updated.
Proof.
  intros Hr Ho Hn Hr' Hi. unfold order_update.
  by rewrite (select_where_ID_in_range _ _ Hr), Ho, Hn,
    (select_where_ID_in_range _ _ Hr'), Hi.
Qed.

(** What a successful response of [order_create] tells. *)
Lemma order_create_succeeded fk now f d :
  succeeded (order_create fk now f d).1 →
  ∃ u i q item,
    order_numbers (strip (get_or f "user_id" [])) (strip (get_or f "item_id" []))
      (strip (get_or f "quantity" (lit "1"))) = Some (u, i, q)
    ∧ menu d !! i = Some item
    ∧ insert_checkout fk now u q i (price_or_0 item) (price_or_0 item * q)
        (strip (get_or f "status" default_status))
        (or_None (strip (get_or f "notes" []))) d
      = Ok (order_create fk now f d).2.
Proof.
  intros [m H]. unfold order_create in *.
  destruct (order_numbers _ _ _) as [[[u i] q]|]; [| done].
  destruct (select_where_ID i (menu d)) as [[item|]|e] eqn:Hsel; [| done | done].
  apply select_where_ID_Ok in Hsel as [_ Hi].
  exists u, i, q, item. split; [done |]. split; [done |].
  by destruct (insert_checkout _ _ _ _ _ _ _ _ _ _).
Qed.

Lemma order_update_succeeded fk order_id f d :
  succeeded (order_update fk order_id f d).1 →
  ∃ old u i q item,
    checkout d !! order_id = Some old
    ∧ order_numbers (strip (get_or f "user_id" [])) (strip (get_or f "item_id" []))
        (strip (get_or f "quantity" (lit "1"))) = Some (u, i, q)
    ∧ menu d !! i = Some item
    ∧ update_checkout fk u q i (price_or_0 item) (price_or_0 item * q)
        (strip (get_or f "status" default_status))
        (or_None (strip (get_or f "notes" []))) order_id d
      = Ok (order_update fk order_id f d).2.
Proof.
  intros [m H]. unfold order_update in *.
  destruct (select_where_ID order_id (checkout d)) as [[old|]|e] eqn:Hsel;
    [| done | done].
  apply select_where_ID_Ok in Hsel as [_ Ho].
  destruct (order_numbers _ _ _) as [[[u i] q]|]; [| done].
  destruct (select_where_ID i (menu d)) as [[item|]|e] eqn:Hsel; [| done | done].
  apply select_where_ID_Ok in Hsel as [_ Hi].
  exists old, u, i, q, item. do 3 (split; [done |]).
  by destruct (update_checkout _ _ _ _ _ _ _ _ _ _).
Qed.

(** [menu_update] writes to [menu] alone. *)
Lemma menu_update_other_tables item_id f d :
  user (menu_update item_id f d).2 = user d
  ∧ checkout (menu_update item_id f d).2 = checkout d.
Proof.
  unfold menu_update, after, update_menu, bound.
  by repeat case_match; simplify_eq/=.
Qed.

(** C2. An order created against a menu item whose price is [P], with
    quantity [Q > 0], is a new row of [checkout] with ItemPrice [P] and
    TotalPrice [P * Q]; whatever update of a menu item follows, that row
    keeps both. *)
Theorem order_price_snapshot fk now f d i Q item P :
  succeeded (order_create fk now f d).1 →
  int (strip (get_or f "item_id" [])) = Some i →
  menu d !! i = Some item →
  Menu.Price item = Some P →
  int (strip (get_or f "quantity" (lit "1"))) = Some Q →
  0 < Q →
  ∃ o, let d' := (order_create fk now f d).2 in
       let order_id := next_rowid (checkout d) in
    checkout d !! order_id = None
    ∧ checkout d' = <[order_id := o]> (checkout d)
    ∧ Checkout.ItemID o = Some i
    ∧ Checkout.quantity o = Some Q
    ∧ Checkout.ItemPrice o = Some P
    ∧ Checkout.TotalPrice o = Some (P * Q)
    ∧ ∀ item_id f', checkout (menu_update item_id f' d').2 !! order_id = Some o.
Proof.
  intros Hs Hi Hitem HP HQ Hpos.
  destruct (order_create_succeeded _ _ _ _ Hs) as (u & i' & q & item' & Hn & Hm & Hins).
  apply order_numbers_Some in Hn as (_ & Hi' & Hq & _).
  simplify_eq. unfold insert_checkout in Hins.
  apply bound_Ok in Hins as [_ Hins].
  destruct (fk_ok _ _ _); [| done].
  injection Hins as Hd. rewrite <- Hd. simpl.
  eexists. split; [apply next_rowid_fresh |]. split; [done |].
  unfold price_or_0. rewrite HP. simpl. do 4 (split; [done |]).
  intros item_id f'.
  destruct (menu_update_other_tables item_id f'
    (Db (user d) (menu d) (<[next_rowid (checkout d) := 
       Checkout.Row (Some u) (Some Q) (Some i) (Some P) (Some (P * Q))
         (Some (strip (get_or f "status" default_status)))
         (or_None (strip (get_or f "notes" []))) (Some now)]> (checkout d))))
    as [_ ->].
  simpl. apply lookup_insert_eq.
Qed.

(** When [order_create] does create: the numbers parse and fit the engine,
    the item exists, and the customer exists if the schema declares the
    foreign keys. *)
Lemma order_create_succeeds fk now f d u i q item :
  int (strip (get_or f "user_id" [])) = Some u →
  int (strip (get_or f "item_id" [])) = Some i →
  int (strip (get_or f "quantity" (lit "1"))) = Some q →
  0 < q →
  menu d !! i = Some item →
  forallb int64 [u; q; i; price_or_0 item; price_or_0 item * q] = true →
  (fk = true → is_Some (user d !! u)) →
  (order_create fk now f d).1 = redirect_dashboard success order_placed.
Proof.
  intros Hu Hi Hq Hpos Hitem Hr Hfk.
  assert (int64 i = true) as Hri.
  { simpl in Hr. by repeat (apply andb_true_iff in Hr as [? Hr]). }
  erewrite order_create_accepts; [| by apply order_numbers_Some | done | done].
  unfold insert_checkout. rewrite (bound_in_range _ _ Hr).
  unfold fk_ok. simpl.
  rewrite (bool_decide_eq_true_2 (is_Some (menu d !! i))); [| by rewrite Hitem].
  destruct fk; simpl; [| done].
  by rewrite bool_decide_eq_true_2; [| apply Hfk].
Qed.

(** C10. Every order update that goes through overwrites the order's
    ItemPrice with the current price of the menu item the form names and
    its TotalPrice with that price times the new quantity, whatever the
    order held before; a price changed since the order was placed thereby
    replaces the snapshot. *)
Theorem order_update_takes_current_price fk order_id f d i Q item P :
  succeeded (order_update fk order_id f d).1 →
  int (strip (get_or f "item_id" [])) = Some i →
  menu d !! i = Some item →
  Menu.Price item = Some P →
  int (strip (get_or f "quantity" (lit "1"))) = Some Q →
  ∃ old o,
    checkout d !! order_id = Some old
    ∧ checkout (order_update fk order_id f d).2 = <[order_id := o]> (checkout d)
    ∧ Checkout.ItemID o = Some i
    ∧ Checkout.quantity o = Some Q
    ∧ Checkout.ItemPrice o = Some P
    ∧ Checkout.TotalPrice o = Some (P * Q)
    ∧ Checkout.CreatedAt o = Checkout.CreatedAt old.
Proof.
  intros Hs Hi Hitem HP HQ.
  destruct (order_update_succeeded _ _ _ _ Hs)
    as (old & u & i' & q & item' & Hold & Hn & Hm & Hupd).
  apply order_numbers_Some in Hn as (_ & Hi' & Hq & _).
  simplify_eq. unfold update_checkout in Hupd.
  apply bound_Ok in Hupd as [_ Hupd]. rewrite Hold in Hupd.
  destruct (fk_ok _ _ _); [| done].
  injection Hupd as Hd. rewrite <- Hd. simpl.
  exists old. eexists. split; [done |]. split; [done |].
  unfold price_or_0. rewrite HP. done.
Qed.

Lemma order_update_succeeds fk order_id f d u i q item :
  is_Some (checkout d !! order_id) →
  int (strip (get_or f "user_id" [])) = Some u →
  int (strip (get_or f "item_id" [])) = Some i →
  int (strip (get_or f "quantity" (lit "1"))) = Some q →
  0 < q →
  menu d !! i = Some item →
  forallb int64 [u; q; i; price_or_0 item; price_or_0 item * q; order_id] = true →
  (fk = true → is_Some (user d !! u)) →
  (order_update fk order_id f d).1 = redirect_dashboard success order_updated.
Proof.
  intros [old Hold] Hu Hi Hq Hpos Hitem Hr Hfk.
  assert (int64 i = true ∧ int64 order_id = true) as [Hri Hro].
  { simpl in Hr. repeat (apply andb_true_iff in Hr as [? Hr]). done. }
  erewrite order_update_accepts;
    [| done | done | by apply order_numbers_Some | done | done].
  unfold update_checkout. rewrite (bound_in_range _ _ Hr).
  unfold fk_ok. rewrite Hold. simpl.
  rewrite (bool_decide_eq_true_2 (is_Some (menu d !! i))); [| by rewrite Hitem].
  destruct fk; simpl; [| done].
  by rewrite bool_decide_eq_true_2; [| apply Hfk].
Qed.





Lemma get_or_blank (f : form) k dflt :
  f !! k = None ∨ f !! k = Some [] → get_or f k dflt = dflt.
Proof. unfold get_or. by intros [-> | ->]. Qed.

(** A menu form without price, or with an empty one, is read as price 0
    and goes through. *)
Lemma menu_create_blank_price f d :
  f !! "price" = None ∨ f !! "price" = Some [] →
  strip (get_or f "name" []) ≠ [] →
  menu_create f d
  = (redirect_dashboard success item_added,
     Db (user d)
        (<[next_rowid (menu d) :=
             Menu.Row (Some (strip (get_or f "name" []))) (Some 0)
               (Some (strip (get_or f "category" default_category)))
               (Some (if bool_decide (f !! "is_available" = Some (lit "on"))
                      then 1 else 0))]> (menu d))
        (checkout d)).
Proof.
  intros Hp Hn. unfold menu_create. rewrite (get_or_blank _ _ _ Hp).
  rewrite bool_decide_eq_false_2 by done.
  change (int (strip (lit "0"))) with (Some 0). simpl.
  unfold insert_menu. rewrite bound_in_range; [done |].
  by case_bool_decide.
Qed.



(** ** Deleting *)

Lemma delete_checkout_where_ItemID_spec item_id d k :
  checkout (delete_checkout_where_ItemID item_id d) !! k
  = o ← checkout d !! k; guard (Checkout.ItemID o ≠ Some item_id);; Some o.
Proof.
  unfold delete_checkout_where_ItemID. simpl.
  rewrite map_lookup_filter. destruct (checkout d !! k) as [o|]; [| done].
  simpl. by repeat case_guard.
Qed.

Lemma delete_checkout_where_UserID_spec user_id d k :
  checkout (delete_checkout_where_UserID user_id d) !! k
  = o ← checkout d !! k; guard (Checkout.UserID o ≠ Some user_id);; Some o.
Proof.
  unfold delete_checkout_where_UserID. simpl.
  rewrite map_lookup_filter. destruct (checkout d !! k) as [o|]; [| done].
  simpl. by repeat case_guard.
Qed.

(** After the orders are gone the row itself can go: the second statement
    of [menu_delete] does not raise, foreign keys or not. *)
Lemma menu_delete_runs fk item_id d :
  menu_delete fk item_id d =
    (redirect_dashboard success item_deleted,
     Db (user d) (delete item_id (menu d))
        (filter (λ kv, Checkout.ItemID kv.2 ≠ Some item_id) (checkout d))).
Proof.
  unfold menu_delete, delete_menu.
  rewrite (bool_decide_eq_false_2 (map_Exists _ _)); [by rewrite andb_false_r |].
  intros (k & o & Hk & Ho).
  rewrite delete_checkout_where_ItemID_spec in Hk.
  destruct (checkout d !! k); simplify_option_eq.
Qed.

Lemma customer_delete_runs fk user_id d :
  customer_delete fk user_id d =
    (redirect_dashboard success customer_deleted,
     Db (delete user_id (user d)) (menu d)
        (filter (λ kv, Checkout.UserID kv.2 ≠ Some user_id) (checkout d))).
Proof.
  unfold customer_delete, delete_user.
  rewrite (bool_decide_eq_false_2 (map_Exists _ _)); [by rewrite andb_false_r |].
  intros (k & o & Hk & Ho).
  rewrite delete_checkout_where_UserID_spec in Hk.
  destruct (checkout d !! k); simplify_option_eq.
Qed.

(** Rows that a filter keeps and rows that it drops make up the table. *)
Lemma size_filter_split {A} (P : Z * A → Prop) `{!∀ x, Decision (P x)}
    (t : gmap Z A) :
  size t = (size (filter P t) + size (filter (λ x, ¬ P x) t))%nat.
Proof.
  rewrite <- (map_filter_union_complement P t) at 1.
  apply map_size_disj_union, map_disjoint_filter_complement.
Qed.

(** ** The dashboard listing *)

Lemma order_by_ID_desc_perm {A} (t : gmap Z A) :
  order_by_ID_desc t ≡ₚ map_to_list t.
Proof. apply merge_sort_Permutation. Qed.

(** Every row of the joined order listing comes from a row of [checkout]
    with these foreign keys. *)
Lemma listed_order d o :
  o ∈ (fetch_dashboard_data d).1.2 →
  ∃ c, checkout d !! Order.OrderID o = Some c
       ∧ Checkout.UserID c = Some (Order.UserID o)
       ∧ Checkout.ItemID c = Some (Order.ItemID o).
Proof.
  simpl. intros ([k c] & Hc & Hj)%list_elem_of_omap.
  rewrite order_by_ID_desc_perm in Hc. apply elem_of_map_to_list in Hc.
  unfold join_order in Hj. simpl in Hj.
  destruct (Checkout.UserID c) as [uid|] eqn:Hu; [| done]. simpl in Hj.
  destruct (user d !! uid); [| done]. simpl in Hj.
  destruct (Checkout.ItemID c) as [iid|] eqn:Hi; [| done]. simpl in Hj.
  destruct (menu d !! iid); [| done]. simpl in Hj.
  injection Hj as <-. simpl. eauto.
Qed.

(** C4. Deleting a menu item, or a customer, removes every order that
    references it (the [N] of them and no other) and the row itself, and
    answers success: afterwards no order of the database, and none of the
    order listing, references the deleted identity. *)
Theorem delete_cascades fk d :
  (∀ item_id,
     let d' := (menu_delete fk item_id d).2 in
     let N := size (filter (λ kv, Checkout.ItemID kv.2 = Some item_id)
                      (checkout d)) in
     succeeded (menu_delete fk item_id d).1
     ∧ menu d' = delete item_id (menu d)
     ∧ user d' = user d
     ∧ (∀ k o, checkout d' !! k = Some o ↔
               checkout d !! k = Some o ∧ Checkout.ItemID o ≠ Some item_id)
     ∧ size (checkout d) = (N + size (checkout d'))%nat
     ∧ (∀ o, o ∈ (fetch_dashboard_data d').1.2 → Order.ItemID o ≠ item_id)
     ∧ (∀ it, it ∈ (fetch_dashboard_data d').1.1.1 → it.1 ≠ item_id))
  ∧ (∀ user_id,
     let d' := (customer_delete fk user_id d).2 in
     let N := size (filter (λ kv, Checkout.UserID kv.2 = Some user_id)
                      (checkout d)) in
     succeeded (customer_delete fk user_id d).1
     ∧ user d' = delete user_id (user d)
     ∧ menu d' = menu d
     ∧ (∀ k o, checkout d' !! k = Some o ↔
               checkout d !! k = Some o ∧ Checkout.UserID o ≠ Some user_id)
     ∧ size (checkout d) = (N + size (checkout d'))%nat
     ∧ (∀ o, o ∈ (fetch_dashboard_data d').1.2 → Order.UserID o ≠ user_id)
     ∧ (∀ u, u ∈ (fetch_dashboard_data d').1.1.2 → u.1 ≠ user_id)).
Proof.
  split.
  - intros item_id. rewrite menu_delete_runs. cbv zeta.
    set (d' := Db _ _ _).
    assert (∀ k o, checkout d' !! k = Some o ↔
              checkout d !! k = Some o ∧ Checkout.ItemID o ≠ Some item_id) as Hco.
    { intros k o. subst d'. simpl. by rewrite map_lookup_filter_Some. }
    split; [by eexists |]. split; [done |]. split; [done |].
    split; [done |]. split; [| split].
    + subst d'. simpl. apply size_filter_split.
    + intros o (c & Hc & _ & Hi)%listed_order Heq.
      apply Hco in Hc as [_ Hne]. by rewrite Heq in Hi.
    + intros [k it] Hit Hk. simpl in *. subst k.
      rewrite order_by_ID_desc_perm in Hit. apply elem_of_map_to_list in Hit.
      subst d'. simpl in Hit. by rewrite lookup_delete_eq in Hit.
  - intros user_id. rewrite customer_delete_runs. cbv zeta.
    set (d' := Db _ _ _).
    assert (∀ k o, checkout d' !! k = Some o ↔
              checkout d !! k = Some o ∧ Checkout.UserID o ≠ Some user_id) as Hco.
    { intros k o. subst d'. simpl. by rewrite map_lookup_filter_Some. }
    split; [by eexists |]. split; [done |]. split; [done |].
    split; [done |]. split; [| split].
    + subst d'. simpl. apply size_filter_split.
    + intros o (c & Hc & Hu & _)%listed_order Heq.
      apply Hco in Hc as [_ Hne]. by rewrite Heq in Hu.
    + intros [k u] Hu Hk. simpl in *. subst k.
      rewrite order_by_ID_desc_perm in Hu. apply elem_of_map_to_list in Hu.
      subst d'. simpl in Hu. by rewrite lookup_delete_eq in Hu.
Qed.


(** ** Creating a menu item *)

Lemma strip_default_category : strip default_category = default_category.
Proof. reflexivity. Qed.

Lemma get_or_absent (f : form) k dflt : f !! k = None → get_or f k dflt = dflt.
Proof. unfold get_or. by intros ->. Qed.

(** C8, as the code has it. A menu create request with a non-empty name
    and an integer price [p >= 0] that the engine can hold, written within
    the interpreter's limit, is answered as a success and adds exactly one
    row, under a fresh identity, with the trimmed name and the price [p].
    An omitted category becomes the generic label. IsAvailable is 1 exactly
    when the field [is_available] is ["on"]: when the field is omitted the
    row is stored with IsAvailable 0. *)
Theorem menu_create_adds_row f d p :
  strip (get_or f "name" []) ≠ [] →
  within_limit (strip (get_or f "price" (lit "0"))) →
  int (strip (get_or f "price" (lit "0"))) = Some p →
  0 ≤ p < 2 ^ 63 →
  ∃ row, let item_id := next_rowid (menu d) in
         let d' := (menu_create f d).2 in
    succeeded (menu_create f d).1
    ∧ menu d !! item_id = None
    ∧ menu d' = <[item_id := row]> (menu d)
    ∧ user d' = user d ∧ checkout d' = checkout d
    ∧ (fetch_dashboard_data d').1.1.1
        ≡ₚ (item_id, row) :: (fetch_dashboard_data d).1.1.1
    ∧ Menu.Name row = Some (strip (get_or f "name" []))
    ∧ Menu.Price row = Some p
    ∧ (f !! "category" = None → Menu.Category row = Some default_category)
    ∧ (f !! "is_available" = Some (lit "on") → Menu.IsAvailable row = Some 1)
    ∧ (f !! "is_available" ≠ Some (lit "on") → Menu.IsAvailable row = Some 0).
Proof.
  intros Hname _ Hprice Hp. unfold menu_create. rewrite Hprice.
  rewrite bool_decide_eq_false_2 by done.
  destruct (Z.ltb_spec p 0); [lia |].
  unfold insert_menu. rewrite bound_in_range.
  2:{ simpl. rewrite (proj2 (int64_spec p)) by lia. by case_bool_decide. }
  simpl.
  eexists. split; [by eexists |].
  split; [apply next_rowid_fresh |]. split; [done |].
  split; [done |]. split; [done |]. split.
  { unfold order_by_ID_desc. rewrite !merge_sort_Permutation.
    apply map_to_list_insert, next_rowid_fresh. }
  simpl. split; [done |]. split; [done |]. split.
  { intros Hc. by rewrite (get_or_absent _ _ _ Hc), strip_default_category. }
  split; intros Ha.
  - by rewrite bool_decide_eq_true_2.
  - by rewrite bool_decide_eq_false_2.
Qed.

(** A price the engine cannot hold passes the checks of the handler and
    makes the INSERT raise: nothing is written. *)
Lemma menu_create_overflow f d p :
  strip (get_or f "name" []) ≠ [] →
  int (strip (get_or f "price" (lit "0"))) = Some p →
  2 ^ 63 ≤ p →
  menu_create f d = (error_500 OverflowError, d).
Proof.
  intros Hname Hprice Hp. unfold menu_create. rewrite Hprice.
  rewrite bool_decide_eq_false_2 by done.
  destruct (Z.ltb_spec p 0); [lia |].
  unfold insert_menu. rewrite bound_out_of_range; [done |].
  simpl. apply andb_false_iff. left.
  destruct (int64 p) eqn:E; [| done]. apply int64_spec in E. lia.
Qed.

(** ** The counters *)

Lemma foldr_add_perm (xs ys : list Z) :
  xs ≡ₚ ys → foldr Z.add 0 xs = foldr Z.add 0 ys.
Proof. induction 1; simpl; lia. Qed.

Lemma foldr_add_nonneg (xs : list Z) :
  Forall (λ x, 0 ≤ x) xs → 0 ≤ foldr Z.add 0 xs.
Proof. induction 1; simpl; lia. Qed.

Lemma add64_in_range a b :
  - 2 ^ 63 ≤ a + b < 2 ^ 63 → add64 a b = Ok (a + b).
Proof. intros H. unfold add64. by rewrite (proj2 (int64_spec _) H). Qed.

Lemma add64_out_of_range a b :
  2 ^ 63 ≤ a + b → add64 a b = Raise OperationalError.
Proof.
  intros H. unfold add64. destruct (int64 (a + b)) eqn:E; [| done].
  apply int64_spec in E. lia.
Qed.

(** One more row at the end of the scan: its value is added to the sum of
    the rows before it, if there is one. *)
Lemma SUM_from_snoc acc xs v :
  SUM_from acc (xs ++ [Some v])
  = match SUM_from acc xs with
    | Ok s => Some <$> add64 (default 0 s) v
    | Raise e => Raise e
    end.
Proof.
  revert acc. induction xs as [|[x|] xs IH]; intros acc; simpl.
  - by destruct (add64 _ _).
  - destruct (add64 _ x); [apply IH | done].
  - apply IH.
Qed.

(** Without negative values the order of the rows does not matter: the
    sum is the plain sum when that is an integer of the engine, and fails
    otherwise. *)
Lemma SUM_from_nonneg acc xs :
  0 ≤ default 0 acc < 2 ^ 63 →
  Forall (λ x, 0 ≤ default 0 x) xs →
  (λ s, COALESCE s 0) <$> SUM_from acc xs
  = let total := default 0 acc + foldr Z.add 0 (default 0 <$> xs) in
    if bool_decide (total < 2 ^ 63) then Ok total else Raise OperationalError.
Proof.
  intros Hacc Hxs. revert acc Hacc.
  induction Hxs as [|[v|] xs Hv Hxs IH]; intros acc Hacc; cbv zeta; csimpl.
  - rewrite Z.add_0_r. rewrite bool_decide_eq_true_2 by lia.
    by destruct acc.
  - pose proof (foldr_add_nonneg (default 0 <$> xs)) as Hrest.
    rewrite Forall_fmap in Hrest. specialize (Hrest Hxs). simpl in Hv.
    destruct (decide (default 0 acc + v < 2 ^ 63)) as [Hfit | Hover].
    + rewrite add64_in_range by lia. rewrite IH by (simpl; lia).
      cbv zeta. simpl. by rewrite Z.add_assoc.
    + rewrite add64_out_of_range by lia. simpl.
      by rewrite bool_decide_eq_false_2 by lia.
  - rewrite IH by done. cbv zeta. by rewrite Z.add_0_l.
Qed.

Lemma table_scan_perm {A} (t : gmap Z A) : table_scan t ≡ₚ map_to_list t.
Proof.
  unfold table_scan. by rewrite reverse_Permutation, order_by_ID_desc_perm.
Qed.

Lemma revenue_unfold d :
  revenue (fetch_dashboard_data d).2
  = (λ s, COALESCE s 0)
      <$> SUM (Checkout.TotalPrice <$> (table_scan (checkout d)).*2).
Proof. done. Qed.

(** The revenue when no stored total is negative. *)
Lemma revenue_nonneg d :
  (∀ k o, checkout d !! k = Some o → 0 ≤ total_of o) →
  revenue (fetch_dashboard_data d).2
  = let total := foldr Z.add 0 (total_of <$> (map_to_list (checkout d)).*2) in
    if bool_decide (total < 2 ^ 63) then Ok total else Raise OperationalError.
Proof.
  intros Hpos. rewrite revenue_unfold. unfold SUM.
  assert (foldr Z.add 0 (default 0 <$> (Checkout.TotalPrice
                                          <$> (table_scan (checkout d)).*2))
          = foldr Z.add 0 (total_of <$> (map_to_list (checkout d)).*2)) as Hsum.
  { rewrite <- list_fmap_compose. apply foldr_add_perm.
    by rewrite table_scan_perm. }
  rewrite SUM_from_nonneg; [| simpl; lia |].
  - cbv zeta. change (default 0 None) with 0. by rewrite Z.add_0_l, Hsum.
  - rewrite <- list_fmap_compose, Forall_fmap. apply Forall_forall.
    intros [k o] Hko. rewrite table_scan_perm in Hko.
    apply elem_of_map_to_list in Hko. by apply (Hpos k).
Qed.

(** C9, as the code has it. The counters of customers, items and orders
    are the number of rows of [user], of [menu] and of [checkout]. The
    revenue is 0 without orders. When no stored TotalPrice is negative it is
    the sum of the TotalPrice the orders store as long as that sum is an
    integer of the engine, every further order adding its TotalPrice to it;
    beyond, the query raises and there is no revenue. *)
Theorem dashboard_counters d :
  let s := (fetch_dashboard_data d).2 in
  let total := foldr Z.add 0 (total_of <$> (map_to_list (checkout d)).*2) in
  customers s = Z.of_nat (size (user d))
  ∧ items s = Z.of_nat (size (menu d))
  ∧ orders s = Z.of_nat (size (checkout d))
  ∧ (checkout d = ∅ → revenue s = Ok 0)
  ∧ ((∀ k o, checkout d !! k = Some o → 0 ≤ total_of o) →
     (total < 2 ^ 63 → revenue s = Ok total)
     ∧ (2 ^ 63 ≤ total → revenue s = Raise OperationalError)
     ∧ (∀ k o, checkout d !! k = None → 0 ≤ total_of o →
          total_of o + total < 2 ^ 63 →
          revenue (fetch_dashboard_data
                     (Db (user d) (menu d) (<[k := o]> (checkout d)))).2
          = Ok (total_of o + total))).
Proof.
  cbv zeta. split; [done |]. split; [done |]. split; [done |]. split.
  - intros He. rewrite revenue_nonneg.
    + rewrite He, map_to_list_empty. done.
    + intros k o. by rewrite He, lookup_empty.
  - intros Hpos. rewrite (revenue_nonneg d Hpos). cbv zeta. split_and!.
    + intros Hfit. by rewrite bool_decide_eq_true_2.
    + intros Hover. by rewrite bool_decide_eq_false_2 by lia.
    + intros k o Hk Ho Hfit. rewrite revenue_nonneg.
      * cbv zeta. simpl.
        rewrite (foldr_add_perm _
                   (total_of o :: (total_of <$> (map_to_list (checkout d)).*2)))
          by (by rewrite (map_to_list_insert _ _ _ Hk)).
        simpl. by rewrite bool_decide_eq_true_2.
      * intros k' o'. simpl. rewrite lookup_insert. case_decide.
        -- by intros [= <-].
        -- apply Hpos.
Qed.
(** ** The claims on the example database *)

Section Examples.
Let now : text := lit "2024-01-02 09:00:00".
Let empty_db : db := Db ∅ ∅ ∅.

(** The example scenario of the specification: a customer, a menu item
    and an order for three of it, on an empty database. *)
Example scenario :
  let d1 := (customer_create now
               {[ "first_name" := lit "Ali"; "last_name" := lit "Rezaei";
                  "phone" := lit "9121234567" ]} empty_db).2 in
  let d2 := (menu_create {[ "name" := lit "Tea"; "price" := lit "15000" ]} d1).2 in
  let d3 := (order_create true now
               {[ "user_id" := lit "1"; "item_id" := lit "1";
                  "quantity" := lit "3" ]} d2).2 in
  (Checkout.ItemPrice <$> checkout d3 !! 1) = Some (Some 15000)
  ∧ (Checkout.TotalPrice <$> checkout d3 !! 1) = Some (Some 45000)
  ∧ (fetch_dashboard_data d3).2 = Stats 1 1 1 (Ok 45000).
Proof. cbv zeta. split_and!; vm_compute; reflexivity. Qed.

(** The price of item 1 goes from 15000 to 20000; order 1 keeps its
    snapshot until it is updated, here in its quantity only, and then
    holds the new price. *)
Example resnapshot :
  let d1 := (menu_update 1 {[ "name" := lit "Tea"; "price" := lit "20000" ]}
               example_db).2 in
  let d2 := (order_update true 1
               {[ "user_id" := lit "1"; "item_id" := lit "1";
                  "quantity" := lit "4" ]} d1).2 in
  (Checkout.ItemPrice <$> checkout d1 !! 1) = Some (Some 15000)
  ∧ (Checkout.ItemPrice <$> checkout d2 !! 1) = Some (Some 20000)
  ∧ (Checkout.TotalPrice <$> checkout d2 !! 1) = Some (Some 80000).
Proof. cbv zeta. split_and!; vm_compute; reflexivity. Qed.
End Examples.



Lemma order_price_snapshot_witness :
  let now := lit "2024-01-02 09:00:00" in
  let f : form := {[ "user_id" := lit "1"; "item_id" := lit "1";
                     "quantity" := lit "3" ]} in
  succeeded (order_create true now f example_db).1
  ∧ ∃ o, checkout (order_create true now f example_db).2
         = <[next_rowid (checkout example_db) := o]> (checkout example_db)
         ∧ Checkout.ItemPrice o = Some 15000
         ∧ Checkout.TotalPrice o = Some (15000 * 3).
Proof.
  cbv zeta.
  assert (succeeded (order_create true (lit "2024-01-02 09:00:00")
            {[ "user_id" := lit "1"; "item_id" := lit "1";
               "quantity" := lit "3" ]} example_db).1) as Hs
    by (vm_compute; eexists; reflexivity).
  split; [exact Hs |].
  destruct (order_price_snapshot true _ _ _ 1 3
              (Menu.Row (Some (lit "Tea")) (Some 15000) (Some default_category)
                 (Some 1)) 15000 Hs)
    as (o & _ & Hd & _ & _ & HP & HT & _);
    [vm_compute; reflexivity | vm_compute; reflexivity | reflexivity
    | vm_compute; reflexivity | lia |].
  exists o. split_and!; [exact Hd | exact HP | exact HT].
Defined.

Lemma rejected_input_leaves_store_witness :
  let now := lit "2024-01-02 09:00:00" in
  let r := POST_customers_update 1
             {[ "first_name" := lit "Ali"; "last_name" := lit "Rezaei";
                "phone" := lit "0" ]} in
  invalid_input r
  ∧ (serve true now r example_db).2 = example_db
  ∧ ¬ succeeded (serve true now r example_db).1.
Proof.
  cbv zeta.
  assert (invalid_input (POST_customers_update 1
            {[ "first_name" := lit "Ali"; "last_name" := lit "Rezaei";
               "phone" := lit "0" ]})) as Hin
    by (right; right; vm_compute; reflexivity).
  split; [exact Hin |].
  exact (rejected_input_leaves_store true (lit "2024-01-02 09:00:00") _
           example_db (or_introl Hin)).
Defined.

Lemma delete_cascades_witness :
  let d' := (menu_delete true 1 example_db).2 in
  succeeded (menu_delete true 1 example_db).1
  ∧ menu d' !! 1 = None
  ∧ size (checkout example_db) = (1 + size (checkout d'))%nat
  ∧ checkout d' = ∅.
Proof.
  cbv zeta.
  destruct (delete_cascades true example_db) as [Hmenu _].
  destruct (Hmenu 1) as (Hs & Hm & _ & _ & Hsize & _).
  split_and!.
  - exact Hs.
  - rewrite Hm. apply lookup_delete_eq.
  - exact Hsize.
  - vm_compute. reflexivity.
Defined.





(** C8 fails on the code: the form gives a name and a price and leaves
    [is_available] out; the row is stored with IsAvailable 0, not 1. And
    the price 2^63 is an integer that is not negative, yet no row appears:
    the INSERT raises. *)
Lemma menu_create_without_is_available :
  let f : form := {[ "name" := lit "Tea"; "price" := lit "15000" ]} in
  let f63 : form := {[ "name" := lit "Tea";
                       "price" := lit "9223372036854775808" ]} in
  f !! "is_available" = None
  ∧ menu (menu_create f (Db ∅ ∅ ∅)).2 !! 1
    = Some (Menu.Row (Some (lit "Tea")) (Some 15000) (Some default_category)
              (Some 0))
  ∧ int (strip (get_or f63 "price" (lit "0"))) = Some (2 ^ 63)
  ∧ menu_create f63 (Db ∅ ∅ ∅) = (error_500 OverflowError, Db ∅ ∅ ∅).
Proof. cbv zeta. split_and!; vm_compute; reflexivity. Qed.

Lemma menu_create_adds_row_witness :
  let f : form := {[ "name" := lit " Coffee "; "price" := lit "25000";
                     "is_available" := lit "on" ]} in
  ∃ row,
    succeeded (menu_create f example_db).1
    ∧ menu (menu_create f example_db).2 = <[2 := row]> (menu example_db)
    ∧ Menu.Name row = Some (lit "Coffee")
    ∧ Menu.Price row = Some 25000
    ∧ Menu.Category row = Some default_category
    ∧ Menu.IsAvailable row = Some 1.
Proof.
  cbv zeta.
  destruct (menu_create_adds_row
              {[ "name" := lit " Coffee "; "price" := lit "25000";
                 "is_available" := lit "on" ]} example_db 25000)
    as (row & Hs & _ & Hm & _ & _ & _ & Hn & Hp & Hc & Ha & _);
    [vm_compute; discriminate | vm_compute; lia | vm_compute; reflexivity
    | lia |].
  exists row. split_and!.
  - exact Hs.
  - exact Hm.
  - exact Hn.
  - exact Hp.
  - apply Hc. vm_compute. reflexivity.
  - apply Ha. vm_compute. reflexivity.
Defined.

(** C9 fails on the code: a customer, an item priced 5 * 10^18 and two
    accepted orders of one piece each. The stored totals add up to 10^19,
    which is no integer of the engine: the query of the revenue raises
    "integer overflow", and the dashboard is the 500 page. *)
Lemma revenue_overflows :
  let now := lit "2024-01-02 09:00:00" in
  let d1 := (customer_create now
               {[ "first_name" := lit "Ali"; "last_name" := lit "Rezaei";
                  "phone" := lit "9121234567" ]} (Db ∅ ∅ ∅)).2 in
  let d2 := (menu_create {[ "name" := lit "Gold";
                            "price" := lit "5000000000000000000" ]} d1).2 in
  let order : form := {[ "user_id" := lit "1"; "item_id" := lit "1";
                         "quantity" := lit "1" ]} in
  let d3 := (order_create true now order d2).2 in
  let d4 := (order_create true now order d3).2 in
  succeeded (order_create true now order d2).1
  ∧ succeeded (order_create true now order d3).1
  ∧ foldr Z.add 0 (total_of <$> (map_to_list (checkout d4)).*2)
    = 10000000000000000000
  ∧ revenue (fetch_dashboard_data d4).2 = Raise OperationalError
  ∧ dashboard d4 = Raise OperationalError.
Proof.
  cbv zeta. split_and!.
  - vm_compute. eexists. reflexivity.
  - vm_compute. eexists. reflexivity.
  - vm_compute. reflexivity.
  - vm_compute. reflexivity.
  - vm_compute. reflexivity.
Qed.

Lemma dashboard_counters_witness :
  (∀ k o, checkout example_db !! k = Some o → 0 ≤ total_of o)
  ∧ (fetch_dashboard_data example_db).2 = Stats 1 1 1 (Ok 45000)
  ∧ revenue (fetch_dashboard_data (Db ∅ ∅ ∅)).2 = Ok 0.
Proof.
  assert (∀ k o, checkout example_db !! k = Some o → 0 ≤ total_of o) as Hpos.
  { intros k o Hk. unfold example_db in Hk. simpl in Hk.
    apply lookup_singleton_Some in Hk as [_ <-]. by vm_compute. }
  split_and!.
  - exact Hpos.
  - destruct (dashboard_counters example_db) as (Hc & Hi & Ho & _ & Hr).
    destruct (Hr Hpos) as [Hfit _].
    destruct (fetch_dashboard_data example_db).2 as [c i o r] eqn:Hs.
    simpl in *. rewrite Hc, Hi, Ho, Hfit; [vm_compute; reflexivity |].
    vm_compute. reflexivity.
  - destruct (dashboard_counters (Db ∅ ∅ ∅)) as (_ & _ & _ & He & _).
    apply He. reflexivity.
Defined.

Lemma order_update_takes_current_price_witness :
  let d := (menu_update 1 {[ "name" := lit "Tea"; "price" := lit "20000" ]}
              example_db).2 in
  let f : form := {[ "user_id" := lit "1"; "item_id" := lit "1";
                     "quantity" := lit "4" ]} in
  succeeded (order_update true 1 f d).1
  ∧ ∃ old o,
      checkout d !! 1 = Some old
      ∧ Checkout.ItemPrice old = Some 15000
      ∧ checkout (order_update true 1 f d).2 = <[1 := o]> (checkout d)
      ∧ Checkout.ItemPrice o = Some 20000
      ∧ Checkout.TotalPrice o = Some (20000 * 4).
Proof.
  cbv zeta.
  set (d := (menu_update 1 {[ "name" := lit "Tea"; "price" := lit "20000" ]}
               example_db).2).
  set (f := ({[ "user_id" := lit "1"; "item_id" := lit "1";
                "quantity" := lit "4" ]} : form)).
  assert (succeeded (order_update true 1 f d).1) as Hs
    by (vm_compute; eexists; reflexivity).
  split; [exact Hs |].
  destruct (order_update_takes_current_price true 1 f d 1 4
              (Menu.Row (Some (lit "Tea")) (Some 20000) (Some default_category)
                 (Some 0)) 20000 Hs)
    as (old & o & Hold & Hd & _ & _ & HP & HT & _);
    [vm_compute; reflexivity | vm_compute; reflexivity | reflexivity
    | vm_compute; reflexivity |].
  exists old, o. split_and!; [exact Hold | | exact Hd | exact HP | exact HT].
  assert (checkout d !! 1 = Some (Checkout.Row (Some 1) (Some 3) (Some 1)
            (Some 15000) (Some 45000) (Some default_status) None
            (Some (lit "2024-01-01 10:05:00")))) as Hrow
    by (vm_compute; reflexivity).
  rewrite Hrow in Hold. injection Hold as <-. reflexivity.
Defined.

(** ** Schema migration *)

Module MigrationFacts.
Import Migration.

#[local] Instance table_extends_refl : Reflexive table_extends.
Proof.
  intros tb. split; [done |]. by apply Forall_Forall2_diag, Forall_true.
Qed.

Lemma table_extends_trans tb1 tb2 tb3 :
  table_extends tb1 tb2 → table_extends tb2 tb3 → table_extends tb1 tb3.
Proof.
  intros [Hp1 Hr1] [Hp2 Hr2]. split; [by etrans |].
  eapply Forall2_trans; [| done | done].
  simpl. intros r1 r2 r3 H12 H23 c Hc. rewrite <- H12 by done.
  apply H23. destruct Hp1 as [k ->]. rewrite fmap_app.
  apply elem_of_app. by left.
Qed.

#[local] Instance extends_refl : Reflexive extends.
Proof. intros d t tb Ht. by exists tb. Qed.

#[local] Instance extends_trans : Transitive extends.
Proof.
  intros d1 d2 d3 H12 H23 t tb Ht.
  destruct (H12 _ _ Ht) as (tb2 & Ht2 & He2).
  destruct (H23 _ _ Ht2) as (tb3 & Ht3 & He3).
  exists tb3. split; [done |]. by eapply table_extends_trans.
Qed.

Lemma extends_present t c d d' : extends d d' → present t c d → present t c d'.
Proof.
  unfold present, table_info. intros He Hp.
  destruct (d !! t) as [tb|] eqn:Ht; [| by apply elem_of_nil in Hp].
  destruct (He _ _ Ht) as (tb' & -> & [[k ->] _]).
  rewrite fmap_app. apply elem_of_app. by left.
Qed.

(** A name the engine does not resolve is no column's name. *)
Lemma resolve_None c cols : resolve c cols = None → c ∉ name <$> cols.
Proof.
  unfold resolve. induction cols as [|col cols IH]; simpl.
  - intros _. apply not_elem_of_nil.
  - case_bool_decide as Hl; [done |]. intros Hf.
    apply not_elem_of_cons. split; [| by apply IH].
    intros ->. done.
Qed.

Lemma resolve_added c v cols :
  resolve c cols = None → resolve c (cols ++ [Column c v]) = Some (Column c v).
Proof.
  unfold resolve. induction cols as [|col cols IH]; simpl.
  - intros _. by rewrite bool_decide_eq_true_2.
  - case_bool_decide; [done |]. apply IH.
Qed.

(** ALTER TABLE ... ADD COLUMN raises or extends. *)
Lemma ALTER_TABLE_ADD_COLUMN_Ok t c v d d' :
  ALTER_TABLE_ADD_COLUMN t c v d = Ok d' →
  ∃ tb, d !! t = Some tb ∧ resolve c (columns tb) = None
        ∧ d' = <[t := Table (columns tb ++ [Column c v])
                            (insert c v <$> rows tb)]> d.
Proof.
  unfold ALTER_TABLE_ADD_COLUMN.
  destruct (d !! t) as [tb|]; [| done].
  destruct (resolve c (columns tb)) eqn:Hr; [done |].
  intros [= <-]. by exists tb.
Qed.

Lemma ALTER_TABLE_ADD_COLUMN_Raise t c v v' d e :
  ALTER_TABLE_ADD_COLUMN t c v d = Raise e →
  ALTER_TABLE_ADD_COLUMN t c v' d = Raise e.
Proof.
  unfold ALTER_TABLE_ADD_COLUMN.
  destruct (d !! t) as [tb|]; [| done].
  by destruct (resolve c (columns tb)).
Qed.

(** Replacing a table by an extension of it extends the database. *)
Lemma extends_insert t tb tb' d :
  d !! t = Some tb → table_extends tb tb' → extends d (<[t := tb']> d).
Proof.
  intros Ht He t1 tb1 Ht1. destruct (decide (t = t1)) as [<-|Hne].
  - rewrite lookup_insert_eq. simplify_eq. by exists tb'.
  - rewrite lookup_insert_ne by done. by exists tb1.
Qed.

Lemma added_column_extends c v tb (f : gmap string value → gmap string value) :
  c ∉ name <$> columns tb →
  (∀ r c', c' ≠ c → f r !! c' = r !! c') →
  table_extends tb (Table (columns tb ++ [Column c v]) (f <$> rows tb)).
Proof.
  intros Hc Hf. split; simpl.
  - by apply prefix_app_r.
  - apply Forall2_fmap_r, Forall2_same_length_lookup_2; [done |].
    intros i r r' Hr Hr' c' Hc'. simplify_eq. apply Hf. by intros ->.
Qed.

(** What one migration does: nothing when the column is there; otherwise
    it raises before any change, or it adds the column without touching
    what was there. *)
Lemma add_if_missing_present t c v bf d :
  present t c d → add_if_missing (t, c, v, bf) d = (Ok (), d).
Proof.
  intros Hp. unfold add_if_missing, has_column, present in *.
  unfold mbind, proc_bind, query, mret, proc_ret. simpl.
  by rewrite bool_decide_eq_true_2.
Qed.

Lemma add_if_missing_cases t c v bf d :
  (∃ e, add_if_missing (t, c, v, bf) d = (Raise e, d)
        ∧ ∀ v' bf', add_if_missing (t, c, v', bf') d = (Raise e, d))
  ∨ (∃ d', add_if_missing (t, c, v, bf) d = (Ok (), d')
           ∧ present t c d' ∧ extends d d').
Proof.
  destruct (decide (c ∈ name <$> table_info t d)) as [Hp | Hp].
  { right. exists d. by rewrite add_if_missing_present. }
  assert (∀ v bf, add_if_missing (t, c, v, bf) d =
            match ALTER_TABLE_ADD_COLUMN t c v d with
            | Ok d1 =>
                match bf with
                | Some w => execute (UPDATE_SET_COALESCE t c w) d1
                | None => (Ok (), d1)
                end
            | Raise e => (Raise e, d)
            end) as Hrun.
  { intros v0 bf0. unfold add_if_missing, has_column, present in *.
    unfold mbind, proc_bind, query, mret, proc_ret, execute. simpl.
    rewrite bool_decide_eq_false_2 by done. simpl.
    destruct bf0; by destruct (ALTER_TABLE_ADD_COLUMN t c v0 d). }
  destruct (ALTER_TABLE_ADD_COLUMN t c v d) as [d1|e] eqn:Halter.
  - right. apply ALTER_TABLE_ADD_COLUMN_Ok in Halter as (tb & Ht & Hr & Hd1).
    pose proof (resolve_None _ _ Hr) as Hc.
    assert (present t c d1) as Hp1.
    { unfold present, table_info. rewrite Hd1, lookup_insert_eq. simpl.
      rewrite fmap_app. apply elem_of_app. right. apply list_elem_of_singleton.
      done. }
    rewrite Hrun. unfold ALTER_TABLE_ADD_COLUMN. rewrite Ht, Hr.
    destruct bf as [w|].
    + unfold execute, UPDATE_SET_COALESCE.
      rewrite lookup_insert_eq. simpl. rewrite (resolve_added _ _ _ Hr). simpl.
      rewrite insert_insert_eq. eexists. split; [done |]. split.
      * unfold present, table_info. rewrite lookup_insert_eq. simpl.
        rewrite fmap_app. apply elem_of_app. right.
        by apply list_elem_of_singleton.
      * eapply extends_insert; [done |]. rewrite <- list_fmap_compose.
        apply added_column_extends; [done |].
        intros r c' Hne. simpl.
        destruct (<[c:=v]> r !! c) as [[]|];
          by rewrite ?lookup_insert_ne, ?lookup_insert_ne by done.
    + exists d1. split; [by rewrite Hd1 |]. split; [done |].
      rewrite Hd1. eapply extends_insert; [done |].
      apply added_column_extends; [done |].
      intros r c' Hne. by rewrite lookup_insert_ne.
  - left. exists e. split; [by rewrite Hrun, Halter |].
    intros v' bf'. rewrite Hrun.
    by rewrite (ALTER_TABLE_ADD_COLUMN_Raise _ _ _ v' _ _ Halter).
Qed.

Lemma add_all_cons m ms d :
  add_all (m :: ms) d =
  match add_if_missing m d with
  | (Ok _, d1) => add_all ms d1
  | (Raise e, d1) => (Raise e, d1)
  end.
Proof. reflexivity. Qed.

(** Running the migrations extends the database, and running them again
    on the result, at any later time, ends the same way and changes nothing. *)
Lemma add_all_settles ms ms' d :
  Forall2 same_columns ms ms' →
  extends d (add_all ms d).2
  ∧ add_all ms' (add_all ms d).2 = add_all ms d.
Proof.
  intros Hms. revert d.
  induction Hms as [|[[[t c] v] bf] [[[t' c'] v'] bf'] ms ms' [Ht Hc] _ IH];
    intros d.
  - done.
  - simpl in Ht, Hc. subst t' c'. rewrite (add_all_cons _ ms).
    destruct (add_if_missing_cases t c v bf d)
      as [(e & Hraise & He) | (d1 & Hok & Hp & Hext)].
    + rewrite Hraise. split; [done |].
      cbn [snd]. by rewrite add_all_cons, He.
    + rewrite Hok. destruct (IH d1) as [Hext1 Hagain]. split; [by etrans |].
      rewrite add_all_cons, add_if_missing_present; [done |].
      by eapply extends_present.
Qed.

(** [executescript] keeps every table that is there and makes the others. *)
Lemma executescript_keeps script d t tb :
  d !! t = Some tb → executescript script d !! t = Some tb.
Proof.
  unfold executescript. revert d.
  induction script as [|[t1 cols] script IH]; intros d Ht; simpl; [done |].
  apply IH. destruct (d !! t1) eqn:Ht1; [done |].
  rewrite lookup_insert_ne; [done |]. by intros ->; simplify_eq.
Qed.

Lemma executescript_creates script d t :
  t ∈ script.*1 → is_Some (executescript script d !! t).
Proof.
  unfold executescript. revert d.
  induction script as [|[t1 cols] script IH]; intros d Ht; simpl.
  - by apply elem_of_nil in Ht.
  - apply elem_of_cons in Ht as [-> | Ht]; [| by apply IH].
    simpl. destruct (d !! t1) as [tb|] eqn:Ht1.
    + eexists. by apply executescript_keeps.
    + eexists. apply executescript_keeps. apply lookup_insert_eq.
  Qed.

Lemma executescript_id script d :
  (∀ t, t ∈ script.*1 → is_Some (d !! t)) → executescript script d = d.
Proof.
  unfold executescript.
  induction script as [|[t1 cols] script IH]; intros Hall; simpl; [done |].
  destruct (Hall t1) as [tb ->]; [by left |].
  apply IH. intros t Ht. apply Hall. by right.
Qed.

Lemma executescript_extends script d : extends d (executescript script d).
Proof. intros t tb Ht. exists tb. split; [by apply executescript_keeps | done]. Qed.

Lemma init_db_unfold schema_sql now d :
  init_db schema_sql now d =
  add_all (migrations now)
    (match schema_sql with
     | Some script => executescript script d
     | None => d
     end).
Proof.
  unfold init_db, migrations, add_all, add_if_missing, has_column, unless.
  unfold mbind, proc_bind, mret, proc_ret, execute, query.
  destruct schema_sql as [script|]; cbv beta iota zeta.
  all: repeat (match goal with
            | |- context [bool_decide ?P] =>
                destruct (bool_decide P); cbv beta iota zeta
            | |- context [ALTER_TABLE_ADD_COLUMN ?t ?c ?v ?d] =>
                destruct (ALTER_TABLE_ADD_COLUMN t c v d) eqn:?; cbv beta iota zeta
            | |- context [UPDATE_SET_COALESCE ?t ?c ?v ?d] =>
                destruct (UPDATE_SET_COALESCE t c v d) eqn:?; cbv beta iota zeta
            end); try reflexivity.
Qed.

Lemma migrations_same_columns now now' :
  Forall2 same_columns (migrations now) (migrations now').
Proof. unfold migrations. repeat constructor. Qed.

(** The tables of [schema.sql] exist once [init_db] has run. *)
Lemma script_tables_exist script d d' :
  extends (executescript script d) d' →
  ∀ t, t ∈ script.*1 → is_Some (d' !! t).
Proof.
  intros Hext t Ht.
  destruct (executescript_creates script d t Ht) as [tb Htb].
  destruct (Hext _ _ Htb) as (tb' & -> & _). done.
Qed.

(** C5. Running [init_db] a second time, at any later time, ends as the
    first run did and leaves the database exactly as the first run left it:
    the same tables with the same columns and the same rows. And a run loses
    nothing: every table stays, its columns stay first and in order with new
    ones only added after them, it has as many rows as before, and every
    row keeps the value, null or not, of every column it had. *)
Theorem init_db_idempotent schema_sql now now' d :
  let once := init_db schema_sql now d in
  init_db schema_sql now' once.2 = once
  ∧ extends d once.2.
Proof.
  cbv zeta. rewrite !init_db_unfold.
  set (d0 := match schema_sql with Some script => executescript script d | None => d end).
  destruct (add_all_settles (migrations now) (migrations now') d0
              (migrations_same_columns now now')) as [Hext Hagain].
  split.
  - rewrite <- Hagain. f_equal.
    destruct schema_sql as [script|]; [| by rewrite Hagain].
    rewrite Hagain. apply executescript_id. by eapply script_tables_exist.
  - etrans; [| done]. subst d0.
    destruct schema_sql; [apply executescript_extends | done].
Qed.

(** On the database from before the migrations, [init_db] runs through and
    adds the six columns; the rows read the defaults and the time of the
    run. *)
Example init_db_legacy :
  let run := init_db (Some []) (lit "2024-02-02 08:00:00") legacy_store in
  run.1 = Ok ()
  ∧ name <$> table_info "user" run.2
    = ["ID"; "FirstName"; "LastName"; "Phone"; "CreatedAt"]
  ∧ name <$> table_info "menu" run.2
    = ["ID"; "Name"; "Price"; "Category"; "IsAvailable"]
  ∧ name <$> table_info "checkout" run.2
    = ["ID"; "UserID"; "quantity"; "ItemID"; "ItemPrice"; "TotalPrice";
       "CreatedAt"; "Status"; "Notes"]
  ∧ (rows <$> run.2 !! "menu")
    = Some [ {[ "ID" := INTEGER 1; "Name" := TEXT (lit "Tea");
                "Price" := INTEGER 15000;
                "Category" := TEXT default_category;
                "IsAvailable" := INTEGER 1 ]} ].
Proof. cbv zeta. split_and!; vm_compute; reflexivity. Qed.

(** Without [schema.sql] and without tables the first ALTER TABLE raises. *)
Example init_db_no_tables :
  init_db None (lit "2024-02-02 08:00:00") ∅ = (Raise OperationalError, ∅).
Proof. vm_compute. reflexivity. Qed.

(** A column that differs from the wanted one in case only is not found by
    [has_column], and adding the column then raises. *)
Example init_db_case_clash :
  let d : store := {[ "user" := Table [Column "ID" NULL; Column "createdat" NULL] [] ]} in
  init_db None (lit "2024-02-02 08:00:00") d = (Raise OperationalError, d).
Proof. vm_compute. reflexivity. Qed.

Lemma init_db_idempotent_witness :
  let once := init_db (Some []) (lit "2024-02-02 08:00:00") legacy_store in
  once.1 = Ok ()
  ∧ init_db (Some []) (lit "2024-03-03 08:00:00") once.2 = once
  ∧ extends legacy_store once.2.
Proof.
  cbv zeta. split; [vm_compute; reflexivity |].
  exact (init_db_idempotent (Some []) (lit "2024-02-02 08:00:00")
           (lit "2024-03-03 08:00:00") legacy_store).
Defined.

End MigrationFacts.

(** * Further properties of the handlers *)

(** Open the create, update and order handlers down to the maps. *)
Ltac open_handlers :=
  unfold routed, menu_create, menu_update, customer_create, customer_update,
    order_create, order_update, order_delete, after, insert_checkout,
    update_checkout, insert_menu, update_menu, insert_user, update_user,
    delete_checkout, select_where_ID, bound in *.

(** ** The tables a route writes *)

(** A menu route never writes a customer, a customer route never a menu
    item, an order route neither; only the two cascading deletes reach into
    [checkout] from outside. *)
Theorem routes_keep_other_tables fk now r d :
  let d' := (serve fk now r d).2 in
  match r with
  | POST_menu _ | POST_menu_update _ _ =>
      user d' = user d ∧ checkout d' = checkout d
  | POST_menu_delete _ => user d' = user d
  | POST_customers _ | POST_customers_update _ _ =>
      menu d' = menu d ∧ checkout d' = checkout d
  | POST_customers_delete _ => menu d' = menu d
  | POST_orders _ | POST_orders_update _ _ | POST_orders_delete _ =>
      user d' = user d ∧ menu d' = menu d
  end.
Proof.
  destruct (serve_cases fk now r d) as [-> | [-> | ->]];
    [| by destruct r | by destruct r].
  destruct r; simpl.
  3: by rewrite menu_delete_runs.
  5: by rewrite customer_delete_runs.
  all: open_handlers; repeat case_match; by simplify_eq/=.
Qed.

(** An update writes the row it is aimed at and no other: every other
    row of its table is what it was, and no identity appears or
    disappears. *)
Theorem update_touches_one_row fk now r d :
  let d' := (serve fk now r d).2 in
  match r with
  | POST_menu_update id _ =>
      ∀ k, (k ≠ id → menu d' !! k = menu d !! k)
           ∧ (is_Some (menu d' !! k) ↔ is_Some (menu d !! k))
  | POST_customers_update id _ =>
      ∀ k, (k ≠ id → user d' !! k = user d !! k)
           ∧ (is_Some (user d' !! k) ↔ is_Some (user d !! k))
  | POST_orders_update id _ =>
      ∀ k, (k ≠ id → checkout d' !! k = checkout d !! k)
           ∧ (is_Some (checkout d' !! k) ↔ is_Some (checkout d !! k))
  | _ => True
  end.
Proof.
  destruct (serve_cases fk now r d) as [-> | [-> | ->]];
    [| by destruct r | by destruct r].
  destruct r; simpl; try done; intros k; open_handlers;
    repeat case_match; simplify_eq/=; try done;
    (split; [intros; by rewrite ?lookup_alter_ne, ?lookup_insert_ne |]);
    rewrite ?lookup_alter, ?lookup_insert;
    match goal with
    | |- context [decide (?i = ?j)] => destruct (decide (i = j))
    end; subst; rewrite ?fmap_is_Some; first [done | split; eauto].
Qed.

(** ** CreatedAt *)

(** No request changes the CreatedAt of a customer or of an order that is
    still there after it. *)
Theorem CreatedAt_is_kept fk now r d :
  let d' := (serve fk now r d).2 in
  (∀ k u u', user d !! k = Some u → user d' !! k = Some u' →
             User.CreatedAt u' = User.CreatedAt u)
  ∧ (∀ k o o', checkout d !! k = Some o → checkout d' !! k = Some o' →
               Checkout.CreatedAt o' = Checkout.CreatedAt o).
Proof.
  destruct (serve_cases fk now r d) as [-> | [-> | ->]];
    [| split; intros k x x' Hx Hx'; by simplify_eq/=
     | split; intros k x x' Hx Hx'; by simplify_eq/=].
  destruct r; simpl.
  3: { rewrite menu_delete_runs. simpl. split; intros k x x' Hx Hx'.
       - by simplify_eq.
       - apply map_lookup_filter_Some in Hx' as [Hx' _]. by simplify_eq. }
  5: { rewrite customer_delete_runs. simpl. split; intros k x x' Hx Hx'.
       - apply lookup_delete_Some in Hx' as [_ Hx']. by simplify_eq.
       - apply map_lookup_filter_Some in Hx' as [Hx' _]. by simplify_eq. }
  all: open_handlers; repeat case_match; simplify_eq/=;
    (split; intros k x x' Hx Hx'); try by simplify_eq.
  - (* customer_create *)
    destruct (decide (next_rowid (user d) = k)) as [<-|];
      [by rewrite next_rowid_fresh in Hx |].
    rewrite lookup_insert_ne in Hx' by done. by simplify_eq.
  - (* customer_update *)
    rewrite lookup_alter in Hx'. case_decide; subst; rewrite Hx in Hx';
      by simplify_eq/=.
  - (* order_create *)
    destruct (decide (next_rowid (checkout d) = k)) as [<-|];
      [by rewrite next_rowid_fresh in Hx |].
    rewrite lookup_insert_ne in Hx' by done. by simplify_eq.
  - (* order_update *)
    destruct (decide (order_id = k)) as [<-|];
      [rewrite lookup_insert_eq in Hx' | rewrite lookup_insert_ne in Hx' by done];
      by simplify_eq/=.
  - (* order_delete *)
    apply lookup_delete_Some in Hx' as [_ Hx']. by simplify_eq.
Qed.

(** ** Sending a request again *)

Lemma menu_update_again item_id f d :
  menu_update item_id f (menu_update item_id f d).2 = menu_update item_id f d.
Proof.
  unfold menu_update. destruct (int64 item_id) eqn:Hr.
  2:{ unfold select_where_ID.
      by rewrite !bound_out_of_range by (simpl; by rewrite Hr). }
  rewrite !(select_where_ID_in_range _ _ Hr).
  destruct (menu d !! item_id) as [it|] eqn:Hit; simpl; [| by rewrite Hit].
  destruct (bool_decide (strip (get_or f "name" []) = [])) eqn:Hn; simpl;
    [by rewrite Hit |].
  destruct (int (strip (get_or f "price" (lit "0")))) as [p|] eqn:Hp; simpl;
    [| by rewrite Hit].
  destruct (p <? 0) eqn:Hneg; simpl; [by rewrite Hit |].
  unfold after, update_menu, bound.
  destruct (forallb int64 _) eqn:Hb; simpl; [| by rewrite Hit].
  rewrite lookup_alter_eq, Hit. simpl. by rewrite alter_alter_eq.
Qed.

Lemma customer_update_again user_id f d :
  customer_update user_id f (customer_update user_id f d).2
  = customer_update user_id f d.
Proof.
  unfold customer_update. destruct (int64 user_id) eqn:Hr.
  2:{ unfold select_where_ID.
      by rewrite !bound_out_of_range by (simpl; by rewrite Hr). }
  rewrite !(select_where_ID_in_range _ _ Hr).
  destruct (user d !! user_id) as [u|] eqn:Hu; simpl; [| by rewrite Hu].
  destruct (bool_decide (strip (get_or f "first_name" []) = [])
            || bool_decide (strip (get_or f "last_name" []) = [])) eqn:Hn;
    simpl; [by rewrite Hu |].
  destruct (int (strip (get_or f "phone" []))) as [p|] eqn:Hp; simpl;
    [| by rewrite Hu].
  destruct (p <=? 0) eqn:Hneg; simpl; [by rewrite Hu |].
  unfold after, update_user, bound.
  destruct (forallb int64 _) eqn:Hb; simpl; [| by rewrite Hu].
  rewrite lookup_alter_eq, Hu. simpl. rewrite alter_alter_eq. reflexivity.
Qed.

(** [order_update] either leaves the database as it is or has passed
    every check and replaced the order. *)
Lemma order_update_cases fk order_id f d :
  (order_update fk order_id f d).2 = d
  ∨ ∃ old u i q item,
      let o := Checkout.Row (Some u) (Some q) (Some i) (Some (price_or_0 item))
                 (Some (price_or_0 item * q))
                 (Some (strip (get_or f "status" default_status)))
                 (or_None (strip (get_or f "notes" [])))
                 (Checkout.CreatedAt old) in
      int64 order_id = true
      ∧ checkout d !! order_id = Some old
      ∧ order_numbers (strip (get_or f "user_id" []))
          (strip (get_or f "item_id" [])) (strip (get_or f "quantity" (lit "1")))
        = Some (u, i, q)
      ∧ int64 i = true
      ∧ menu d !! i = Some item
      ∧ forallb int64 [u; q; i; price_or_0 item; price_or_0 item * q; order_id]
        = true
      ∧ fk_ok fk d o = true
      ∧ order_update fk order_id f d
        = (redirect_dashboard success order_updated,
           Db (user d) (menu d) (<[order_id := o]> (checkout d))).
Proof.
  unfold order_update.
  destruct (select_where_ID order_id (checkout d)) as [[old|]|e] eqn:Hsel;
    [| by left | by left].
  apply select_where_ID_Ok in Hsel as [Hr Hold].
  destruct (order_numbers _ _ _) as [[[u i] q]|] eqn:Hn; [| by left].
  destruct (select_where_ID i (menu d)) as [[item|]|e] eqn:Hitem;
    [| by left | by left].
  apply select_where_ID_Ok in Hitem as [Hri Hitem].
  unfold after, update_checkout, bound.
  destruct (forallb int64 _) eqn:Hb; [| by left].
  rewrite <- Hold.
  destruct (fk_ok fk d _) eqn:Hfk; [| by left].
  right. exists old, u, i, q, item. cbv zeta. by split_and!.
Qed.

Lemma order_update_again fk order_id f d :
  order_update fk order_id f (order_update fk order_id f d).2
  = order_update fk order_id f d.
Proof.
  destruct (order_update_cases fk order_id f d)
    as [-> | (old & u & i & q & item & Hr & Hold & Hn & Hri & Hitem & Hb & Hfk
              & Heq)]; [done |].
  rewrite Heq. cbn [snd].
  erewrite order_update_accepts;
    [| done | cbn [checkout]; apply lookup_insert_eq | done | done | done].
  unfold update_checkout. rewrite (bound_in_range _ _ Hb).
  cbn [checkout]. rewrite lookup_insert_eq.
  unfold fk_ok in *. cbn in Hfk |- *. rewrite Hfk. cbn.
  by rewrite insert_insert_eq.
Qed.

Lemma filter_again {A} (P : Z * A → Prop) `{!∀ x, Decision (P x)} (t : gmap Z A) :
  filter P (filter P t) = filter P t.
Proof.
  apply map_filter_id. intros k x Hx.
  by apply map_lookup_filter_Some in Hx as [_ ?].
Qed.

(** An update or a delete sent a second time, right after the first, is
    answered as the first was and changes nothing more. *)
Theorem repeated_request fk now now' r d :
  creates r = false →
  serve fk now' r (serve fk now r d).2 = serve fk now r d.
Proof.
  intros Hr.
  assert (handler fk now' r (handler fk now r d).2 = handler fk now r d) as Hh.
  { destruct r; simpl in *; try done.
    - apply menu_update_again.
    - rewrite !menu_delete_runs. simpl.
      by rewrite delete_delete_eq, filter_again.
    - apply customer_update_again.
    - rewrite !customer_delete_runs. simpl.
      by rewrite delete_delete_eq, filter_again.
    - apply order_update_again.
    - unfold order_delete, delete_checkout. simpl.
      by rewrite delete_delete_eq. }
  unfold serve. destruct (route_identity r) as [id|]; [| done].
  unfold routed. by repeat case_match.
Qed.

(** ** What every request keeps *)

Lemma references_insert {A} v k (x : A) (t : gmap Z A) :
  references v t = true → references v (<[k := x]> t) = true.
Proof.
  destruct v as [j|]; simpl; [| done].
  rewrite !bool_decide_eq_true, lookup_insert_is_Some. intros. 
  destruct (decide (k = j)); [by left | by right].
Qed.

Lemma references_alter {A} v k (g : A → A) (t : gmap Z A) :
  references v t = true → references v (alter g k t) = true.
Proof.
  destruct v as [j|]; simpl; [| done].
  rewrite !bool_decide_eq_true, lookup_alter.
  case_decide; subst; by rewrite ?fmap_is_Some.
Qed.

Lemma references_delete {A} v k (t : gmap Z A) :
  v ≠ Some k → references v t = true → references v (delete k t) = true.
Proof.
  destruct v as [j|]; simpl; [| done]. intros Hne.
  rewrite !bool_decide_eq_true, lookup_delete_is_Some. intros. split; [| done].
  by intros ->.
Qed.

(** With the foreign keys declared, no request leaves an order whose
    customer or menu item is missing; and whatever the schema declares, only
    a request that writes an order can. *)
Theorem integrity_is_kept fk now r d :
  integrity d →
  fk = true ∨ writes_order r = false →
  integrity (serve fk now r d).2.
Proof.
  intros Hd Hfk.
  destruct (serve_cases fk now r d) as [-> | [-> | ->]]; [| done | done].
  destruct r; simpl in *.
  3: { rewrite menu_delete_runs. intros k o Ho. simpl in *.
       apply map_lookup_filter_Some in Ho as [Ho Hne]. simpl in Hne.
       destruct (Hd _ _ Ho). split; [done | by apply references_delete]. }
  5: { rewrite customer_delete_runs. intros k o Ho. simpl in *.
       apply map_lookup_filter_Some in Ho as [Ho Hne]. simpl in Hne.
       destruct (Hd _ _ Ho). split; [by apply references_delete | done]. }
  all: open_handlers; repeat case_match; simplify_eq/=; try done.
  all: intros k o Ho; simpl in *.
  - destruct (Hd _ _ Ho). split; [done | by apply references_insert].
  - destruct (Hd _ _ Ho). split; [done | by apply references_insert].
  - destruct (Hd _ _ Ho). split; [done | by apply references_alter].
  - destruct (Hd _ _ Ho). split; [done | by apply references_alter].
  - destruct (Hd _ _ Ho). split; [by apply references_insert | done].
  - destruct (Hd _ _ Ho). split; [by apply references_alter | done].
  - destruct Hfk as [-> | ?]; [| done].
    apply lookup_insert_Some in Ho as [[_ <-] | [_ Ho]]; [| by eapply Hd].
    unfold fk_ok in *. simpl in *. by apply andb_prop.
  - destruct Hfk as [-> | ?]; [| done].
    apply lookup_insert_Some in Ho as [[_ <-] | [_ Ho]]; [| by eapply Hd].
    unfold fk_ok in *. simpl in *. by apply andb_prop.
  - apply lookup_delete_Some in Ho as [_ Ho]. by eapply Hd.
Qed.

(** Every order a request writes has its TotalPrice equal to its ItemPrice
    times its quantity, and no request breaks this on the orders that are
    there. *)
Theorem totals_are_kept fk now r d :
  (∀ k o, checkout d !! k = Some o → priced o) →
  ∀ k o, checkout (serve fk now r d).2 !! k = Some o → priced o.
Proof.
  intros Hd k o.
  destruct (serve_cases fk now r d) as [-> | [-> | ->]]; [| by eauto | by eauto].
  destruct r; simpl.
  3: { rewrite menu_delete_runs. simpl. intros [Ho _]%map_lookup_filter_Some. eauto. }
  5: { rewrite customer_delete_runs. simpl. intros [Ho _]%map_lookup_filter_Some. eauto. }
  all: open_handlers; repeat case_match; simplify_eq/=; eauto.
  - intros [[_ <-] | [_ Ho]]%lookup_insert_Some; [done | eauto].
  - intros [[_ <-] | [_ Ho]]%lookup_insert_Some; [done | eauto].
  - intros [_ Ho]%lookup_delete_Some. eauto.
Qed.

(** ** Creating and deleting again *)

Lemma Db_eta d : Db (user d) (menu d) (checkout d) = d.
Proof. by destruct d. Qed.

(** Deleting the identity a create request was about to take undoes the
    request: the database is the one before it, whether the request was
    accepted or not. (In a database with dangling orders the cascade of the
    delete could remove more.) *)
Theorem create_then_delete fk now r r' d :
  integrity d →
  undo r d = Some r' →
  (serve fk now r' (serve fk now r d).2).2 = d.
Proof.
  intros Hd Hundo. destruct r; simpl in Hundo; try done;
    destruct (routable _) eqn:Hr; simplify_eq; simpl;
    rewrite (routed_routable _ _ _ Hr).
  - rewrite menu_delete_runs. simpl.
    assert (menu (menu_create f d).2 = menu d
            ∨ ∃ x, menu (menu_create f d).2 = <[next_rowid (menu d) := x]> (menu d))
      as Hm by (open_handlers; repeat case_match; simplify_eq/=; eauto).
    assert (user (menu_create f d).2 = user d
            ∧ checkout (menu_create f d).2 = checkout d) as [-> ->]
      by (open_handlers; by repeat case_match; simplify_eq/=).
    rewrite map_filter_id.
    + destruct Hm as [-> | [x ->]];
        [rewrite delete_id | rewrite delete_insert_id];
        auto using next_rowid_fresh, Db_eta.
    + intros k o Ho Hi. destruct (Hd _ _ Ho) as [_ Href]. simpl in Hi.
      rewrite Hi in Href. simpl in Href.
      apply bool_decide_eq_true in Href as [x Hx].
      by rewrite next_rowid_fresh in Hx.
  - rewrite customer_delete_runs. simpl.
    assert (user (customer_create now f d).2 = user d
            ∨ ∃ x, user (customer_create now f d).2
                   = <[next_rowid (user d) := x]> (user d))
      as Hu by (open_handlers; repeat case_match; simplify_eq/=; eauto).
    assert (menu (customer_create now f d).2 = menu d
            ∧ checkout (customer_create now f d).2 = checkout d) as [-> ->]
      by (open_handlers; by repeat case_match; simplify_eq/=).
    rewrite map_filter_id.
    + destruct Hu as [-> | [x ->]];
        [rewrite delete_id | rewrite delete_insert_id];
        auto using next_rowid_fresh, Db_eta.
    + intros k o Ho Hi. destruct (Hd _ _ Ho) as [Href _]. simpl in Hi.
      rewrite Hi in Href. simpl in Href.
      apply bool_decide_eq_true in Href as [x Hx].
      by rewrite next_rowid_fresh in Hx.
  - unfold order_delete, delete_checkout. simpl.
    assert ((order_create fk now f d).2 = d
            ∨ ∃ o, (order_create fk now f d).2
                   = Db (user d) (menu d) (<[next_rowid (checkout d) := o]> (checkout d)))
      as [-> | [o ->]]
      by (open_handlers; repeat case_match; simplify_eq/=; eauto).
    + rewrite delete_id by apply next_rowid_fresh. apply Db_eta.
    + simpl. rewrite delete_insert_id by apply next_rowid_fresh. apply Db_eta.
Qed.

(** ** An order for a customer who does not exist *)

(** The handlers never look the customer up. With an existing menu item
    and numbers that [int()] takes and the engine can hold, an order form
    that names a missing customer makes the statement raise when the
    foreign keys are declared: the answer is the 500 page and nothing is
    written. When they are not declared the order is written and references
    nobody. *)
Theorem order_for_unknown_customer fk now f d u i q item :
  within_limit (strip (get_or f "user_id" [])) →
  within_limit (strip (get_or f "item_id" [])) →
  within_limit (strip (get_or f "quantity" (lit "1"))) →
  int (strip (get_or f "user_id" [])) = Some u →
  int (strip (get_or f "item_id" [])) = Some i →
  int (strip (get_or f "quantity" (lit "1"))) = Some q →
  0 < q →
  menu d !! i = Some item →
  user d !! u = None →
  forallb int64 [u; q; i; price_or_0 item; price_or_0 item * q] = true →
  (fk = true →
     order_create fk now f d = (error_500 IntegrityError, d)
     ∧ ∀ order_id, int64 order_id = true → is_Some (checkout d !! order_id) →
         order_update fk order_id f d = (error_500 IntegrityError, d))
  ∧ (fk = false →
     (succeeded (order_create fk now f d).1
      ∧ ¬ integrity (order_create fk now f d).2)
     ∧ ∀ order_id, int64 order_id = true → is_Some (checkout d !! order_id) →
         succeeded (order_update fk order_id f d).1
         ∧ ¬ integrity (order_update fk order_id f d).2).
Proof.
  intros _ _ _ Hu Hi Hq Hpos Hitem Hmiss Hb.
  assert (order_numbers (strip (get_or f "user_id" []))
            (strip (get_or f "item_id" []))
            (strip (get_or f "quantity" (lit "1"))) = Some (u, i, q)) as Hn
    by by apply order_numbers_Some.
  assert (int64 i = true) as Hri.
  { simpl in Hb. by repeat (apply andb_true_iff in Hb as [? Hb]). }
  assert (∀ order_id, int64 order_id = true →
            forallb int64 [u; q; i; price_or_0 item; price_or_0 item * q;
                           order_id] = true) as Hb'.
  { intros order_id Hr. simpl in *. rewrite Hr.
    repeat (apply andb_true_iff in Hb as [-> Hb]). done. }
  split; intros ->.
  - split.
    + rewrite (order_create_accepts _ _ _ _ _ _ _ _ Hn Hri Hitem).
      unfold insert_checkout. rewrite (bound_in_range _ _ Hb).
      unfold fk_ok. simpl. by rewrite Hmiss.
    + intros order_id Hr [old Hold].
      rewrite (order_update_accepts _ _ _ _ _ _ _ _ _ Hr Hold Hn Hri Hitem).
      unfold update_checkout. rewrite (bound_in_range _ _ (Hb' _ Hr)).
      unfold fk_ok. rewrite Hold. simpl. by rewrite Hmiss.
  - split.
    + rewrite (order_create_accepts _ _ _ _ _ _ _ _ Hn Hri Hitem).
      unfold insert_checkout. rewrite (bound_in_range _ _ Hb).
      unfold fk_ok. simpl. split; [by eexists |].
      intros Hint.
      destruct (Hint (next_rowid (checkout d)) _ (lookup_insert_eq _ _ _))
        as [Href _].
      simpl in Href. apply bool_decide_eq_true in Href as [x Hx].
      by rewrite Hmiss in Hx.
    + intros order_id Hr [old Hold].
      rewrite (order_update_accepts _ _ _ _ _ _ _ _ _ Hr Hold Hn Hri Hitem).
      unfold update_checkout. rewrite (bound_in_range _ _ (Hb' _ Hr)).
      unfold fk_ok. rewrite Hold. simpl.
      split; [by eexists |]. intros Hint.
      destruct (Hint order_id _ (lookup_insert_eq _ _ _)) as [Href _].
      simpl in Href. apply bool_decide_eq_true in Href as [x Hx].
      by rewrite Hmiss in Hx.
Qed.

(** ** Blank and omitted fields *)

Lemma lstrip_blank sp (s : text) : Forall (λ c, sp c = true) s → lstrip sp s = [].
Proof. induction 1 as [|c s Hc _ IH]; simpl; [done | by rewrite Hc]. Qed.

Lemma strip_blank_all (s : text) :
  Forall (λ c, isspace c = true) s → strip s = [].
Proof.
  intros H. unfold strip, strip_with. rewrite (lstrip_blank _ _ H). reflexivity.
Qed.

(** A name that is omitted, empty or made of white space only is rejected
    by [menu_create]. With a name, a price that is omitted or empty counts
    as 0 and the item is created with price 0, while a price made of white
    space only is rejected. *)
Theorem menu_form_edges f d :
  (Forall (λ c, isspace c = true) (get_or f "name" []) →
   menu_create f d = (redirect_dashboard danger item_name_empty, d))
  ∧ (strip (get_or f "name" []) ≠ [] →
     (f !! "price" = None ∨ f !! "price" = Some [] →
      succeeded (menu_create f d).1
      ∧ (Menu.Price <$> menu (menu_create f d).2 !! next_rowid (menu d))
        = Some (Some 0))
     ∧ (∀ p, f !! "price" = Some p → p ≠ [] →
             Forall (λ c, isspace c = true) p →
             menu_create f d = (redirect_dashboard danger price_invalid, d))).
Proof.
  split; [| intros Hname; split].
  - intros Hblank. unfold menu_create. by rewrite strip_blank_all.
  - intros Hp. rewrite (menu_create_blank_price _ _ Hp Hname). simpl.
    split; [by eexists |]. by rewrite lookup_insert_eq.
  - intros p Hp Hne Hblank. unfold menu_create.
    rewrite bool_decide_eq_false_2 by done.
    assert (get_or f "price" (lit "0") = p) as ->
      by (unfold get_or; rewrite Hp; by destruct p).
    by rewrite strip_blank_all.
Qed.

(** An accepted [order_create] stamps the order with the time of the
    request. A form without quantity orders one item, so that the total is
    the item price; without status it gets the default status; notes that
    are omitted or blank are stored as NULL, others trimmed. *)
Theorem order_create_defaults fk now f d :
  succeeded (order_create fk now f d).1 →
  ∃ o, checkout (order_create fk now f d).2
       = <[next_rowid (checkout d) := o]> (checkout d)
    ∧ Checkout.CreatedAt o = Some now
    ∧ (f !! "quantity" = None →
       Checkout.quantity o = Some 1
       ∧ Checkout.TotalPrice o = Checkout.ItemPrice o)
    ∧ (f !! "status" = None → Checkout.Status o = Some default_status)
    ∧ (Forall (λ c, isspace c = true) (get_or f "notes" []) →
       Checkout.Notes o = None)
    ∧ (strip (get_or f "notes" []) ≠ [] →
       Checkout.Notes o = Some (strip (get_or f "notes" []))).
Proof.
  intros Hs.
  destruct (order_create_succeeded _ _ _ _ Hs) as (u & i & q & item & Hn & Hm & Hins).
  unfold insert_checkout in Hins. apply bound_Ok in Hins as [_ Hins].
  destruct (fk_ok _ _ _); [| done].
  injection Hins as <-. simpl. eexists. split; [done |]. simpl.
  split; [done |]. split; [| split; [| split]].
  - intros Hq. rewrite (get_or_absent _ _ _ Hq) in Hn.
    apply order_numbers_Some in Hn as (_ & _ & Hq1 & _).
    vm_compute in Hq1. injection Hq1 as <-. by rewrite Z.mul_1_r.
  - intros Hst. by rewrite (get_or_absent _ _ _ Hst).
  - intros Hblank. by rewrite strip_blank_all.
  - intros Hnotes. by destruct (strip (get_or f "notes" [])).
Qed.

(** A customer form with both names and a positive integer phone that
    the engine can hold, written within the interpreter's limit, adds
    exactly one customer, under a fresh identity, with the trimmed names,
    the phone and the time of the request; nothing else changes. *)
Theorem customer_create_adds_row now f d phone :
  strip (get_or f "first_name" []) ≠ [] →
  strip (get_or f "last_name" []) ≠ [] →
  within_limit (strip (get_or f "phone" [])) →
  int (strip (get_or f "phone" [])) = Some phone →
  0 < phone < 2 ^ 63 →
  customer_create now f d
  = (redirect_dashboard success customer_added,
     Db (<[next_rowid (user d) :=
             User.Row (Some (strip (get_or f "first_name" [])))
                      (Some (strip (get_or f "last_name" [])))
                      (Some phone) (Some now)]> (user d))
        (menu d) (checkout d))
  ∧ user d !! next_rowid (user d) = None.
Proof.
  intros Hf Hl _ Hp Hpos. split; [| apply next_rowid_fresh].
  unfold customer_create. rewrite Hp.
  rewrite !bool_decide_eq_false_2 by done. simpl.
  destruct (Z.leb_spec phone 0); [lia |].
  unfold insert_user. rewrite bound_in_range; [done |].
  simpl. by rewrite (proj2 (int64_spec phone)) by lia.
Qed.

(** ** The order of the listings *)

#[local] Instance ID_DESC_trans {A} : Transitive (@ID_DESC A).
Proof. unfold ID_DESC. intros x y z ??. lia. Qed.

#[local] Instance ID_DESC_total {A} : Total (@ID_DESC A).
Proof. unfold ID_DESC. intros x y. lia. Qed.

Lemma StronglySorted_strict {A} (l : list (Z * A)) :
  StronglySorted ID_DESC l → NoDup l.*1 →
  StronglySorted (λ a b, b.1 < a.1) l.
Proof.
  induction 1 as [|x l Hl IH Hx]; intros Hnd; [constructor |].
  apply NoDup_cons in Hnd as [Hnot Hnd]. constructor; [by apply IH |].
  apply Forall_forall. intros y Hy.
  assert (y.1 ≠ x.1).
  { intros Heq. apply Hnot. rewrite <- Heq. apply list_elem_of_fmap. eauto. }
  rewrite Forall_forall in Hx. specialize (Hx y Hy). unfold ID_DESC in Hx. lia.
Qed.

(** ORDER BY ID DESC: no identity twice, the larger first. *)
Lemma order_by_ID_desc_sorted {A} (t : gmap Z A) :
  StronglySorted (λ a b, b.1 < a.1) (order_by_ID_desc t).
Proof.
  apply StronglySorted_strict.
  - apply StronglySorted_merge_sort; apply _.
  - rewrite order_by_ID_desc_perm. apply NoDup_fst_map_to_list.
Qed.

Lemma order_by_ID_desc_elem {A} (t : gmap Z A) k x :
  (k, x) ∈ order_by_ID_desc t ↔ t !! k = Some x.
Proof. by rewrite order_by_ID_desc_perm, elem_of_map_to_list. Qed.


Lemma join_order_Some d c o :
  join_order d c = Some o ↔
  ∃ uid u iid m,
    Checkout.UserID c.2 = Some uid ∧ user d !! uid = Some u
    ∧ Checkout.ItemID c.2 = Some iid ∧ menu d !! iid = Some m
    ∧ o = Order.Row c.1 (Checkout.quantity c.2) (Checkout.ItemPrice c.2)
            (Checkout.TotalPrice c.2) (Checkout.Status c.2) (Checkout.Notes c.2)
            (Checkout.CreatedAt c.2) uid (User.FirstName u) (User.LastName u)
            (User.Phone u) iid (Menu.Name m) (Menu.Category m).
Proof.
  unfold join_order. split.
  - intros H. destruct (Checkout.UserID c.2) as [uid|]; [| done]. simpl in H.
    destruct (user d !! uid) as [u|] eqn:Hu; [| done]. simpl in H.
    destruct (Checkout.ItemID c.2) as [iid|]; [| done]. simpl in H.
    destruct (menu d !! iid) as [m|] eqn:Hm; [| done]. simpl in H.
    injection H as <-. by exists uid, u, iid, m.
  - intros (uid & u & iid & m & -> & Hu & -> & Hm & ->). simpl.
    rewrite Hu. simpl. by rewrite Hm.
Qed.

Lemma next_rowid_above {A} (t : gmap Z A) k x :
  t !! k = Some x → k < next_rowid t.
Proof.
  intros (m & Hm & Hle)%max_rowid_ge. unfold next_rowid. rewrite Hm. lia.
Qed.

(** The row an INSERT has just added leads the listing. *)
Lemma newest_leads {A} (t : gmap Z A) x :
  head (order_by_ID_desc (<[next_rowid t := x]> t)) = Some (next_rowid t, x).
Proof.
  pose proof (order_by_ID_desc_sorted (<[next_rowid t := x]> t)) as Hsorted.
  assert ((next_rowid t, x) ∈ order_by_ID_desc (<[next_rowid t := x]> t)) as Hin
    by (apply order_by_ID_desc_elem, lookup_insert_eq).
  destruct (order_by_ID_desc (<[next_rowid t := x]> t)) as [|[k0 x0] rest] eqn:Hl;
    [by apply elem_of_nil in Hin |].
  simpl. apply elem_of_cons in Hin as [Hhead | Hrest]; [by rewrite Hhead |].
  apply StronglySorted_inv in Hsorted as [_ Hall].
  rewrite Forall_forall in Hall. specialize (Hall _ Hrest). simpl in Hall.
  assert ((k0, x0) ∈ order_by_ID_desc (<[next_rowid t := x]> t)) as Hk0
    by (rewrite Hl; apply elem_of_cons; by left).
  apply order_by_ID_desc_elem, lookup_insert_Some in Hk0 as [[<- _] | [_ Hk0]];
    [lia |].
  apply next_rowid_above in Hk0. lia.
Qed.

(** ** The dashboard after a request *)

Lemma size_insert_fresh {A} (t : gmap Z A) x :
  Z.of_nat (size (<[next_rowid t := x]> t)) = Z.of_nat (size t) + 1.
Proof. rewrite map_size_insert_None by apply next_rowid_fresh. lia. Qed.

(** The row an INSERT has just added is the first of the listing and the
    last of a scan. *)
Lemma order_by_ID_desc_newest {A} (t : gmap Z A) x :
  order_by_ID_desc (<[next_rowid t := x]> t)
  = (next_rowid t, x) :: order_by_ID_desc t.
Proof.
  apply (StronglySorted_unique_strong (λ a b : Z * A, b.1 < a.1)).
  - intros ????. lia.
  - apply order_by_ID_desc_sorted.
  - constructor; [apply order_by_ID_desc_sorted |].
    apply Forall_forall. intros [k y] Hk%order_by_ID_desc_elem.
    apply next_rowid_above in Hk. simpl. lia.
  - rewrite !order_by_ID_desc_perm.
    apply map_to_list_insert, next_rowid_fresh.
Qed.

Lemma table_scan_newest {A} (t : gmap Z A) x :
  table_scan (<[next_rowid t := x]> t)
  = (table_scan t ++ [(next_rowid t, x)])%list.
Proof. unfold table_scan. by rewrite order_by_ID_desc_newest, reverse_cons. Qed.

(** The revenue after a further order: its total is added, in the integers
    of the engine, to the revenue before it. *)
Lemma revenue_newest d o total :
  Checkout.TotalPrice o = Some total →
  revenue (fetch_dashboard_data
             (Db (user d) (menu d)
                 (<[next_rowid (checkout d) := o]> (checkout d)))).2
  = match revenue (fetch_dashboard_data d).2 with
    | Ok v => add64 v total
    | Raise e => Raise e
    end.
Proof.
  intros Ho. rewrite !revenue_unfold. cbn [checkout]. unfold SUM.
  rewrite table_scan_newest, !fmap_app. cbn [fmap list_fmap snd]. rewrite Ho.
  rewrite SUM_from_snoc.
  destruct (SUM_from None _) as [s|e]; [| done]. cbn.
  replace (default 0 s) with (COALESCE s 0) by (by destruct s).
  by destruct (add64 _ _).
Qed.

(** An accepted create raises the counter of its table by one and leaves
    the other two alone. A new item or customer leaves the revenue as it
    is; a new order adds the price of the named item times the quantity to
    it, in the integers of the engine: where the sum does not fit them, the
    query of the revenue fails from then on. *)
Theorem accepted_create_counts fk now r d :
  succeeded (serve fk now r d).1 →
  let s := (fetch_dashboard_data d).2 in
  let s' := (fetch_dashboard_data (serve fk now r d).2).2 in
  match r with
  | POST_menu _ =>
      s' = Stats (customers s) (items s + 1) (orders s) (revenue s)
  | POST_customers _ =>
      s' = Stats (customers s + 1) (items s) (orders s) (revenue s)
  | POST_orders f =>
      ∃ item q,
        referenced_item f d = Some item
        ∧ int (strip (get_or f "quantity" (lit "1"))) = Some q
        ∧ s' = Stats (customers s) (items s) (orders s + 1)
                     (match revenue s with
                      | Ok v => add64 v (price_or_0 item * q)
                      | Raise e => Raise e
                      end)
  | _ => True
  end.
Proof.
  intros Hs. cbv zeta. destruct r; try done;
    cbn [serve handler route_identity] in *.
  - unfold menu_create, after, insert_menu, bound in *.
    repeat case_match; simplify_eq/=; try (by destruct Hs).
    all: unfold COUNT; by rewrite size_insert_fresh.
  - unfold customer_create, after, insert_user, bound in *.
    repeat case_match; simplify_eq/=; try (by destruct Hs).
    all: unfold COUNT; by rewrite size_insert_fresh.
  - destruct (order_create_succeeded _ _ _ _ Hs)
      as (u & i & q & item & Hn & Hm & Hins).
    apply order_numbers_Some in Hn as (_ & Hi & Hq & _).
    exists item, q. split; [by unfold referenced_item; rewrite Hi |].
    split; [done |].
    unfold insert_checkout in Hins. apply bound_Ok in Hins as [_ Hins].
    destruct (fk_ok _ _ _); [| done].
    injection Hins as <-.
    match goal with
    | |- context [<[_ := ?o]> _] =>
        rewrite <- (revenue_newest d o (price_or_0 item * q) eq_refl)
    end.
    cbn. unfold COUNT. by rewrite size_insert_fresh.
Qed.

(** ** The listings *)


(** Most recent first: after an accepted create the new row is the first
    of its listing. For an order this needs its customer to exist, as the
    listing joins the customers. *)
Theorem newest_first fk now r d :
  succeeded (serve fk now r d).1 →
  let d' := (serve fk now r d).2 in
  match r with
  | POST_menu _ =>
      fst <$> head (fetch_dashboard_data d').1.1.1 = Some (next_rowid (menu d))
  | POST_customers _ =>
      fst <$> head (fetch_dashboard_data d').1.1.2 = Some (next_rowid (user d))
  | POST_orders f =>
      is_Some (referenced_customer f d) →
      Order.OrderID <$> head (fetch_dashboard_data d').1.2
      = Some (next_rowid (checkout d))
  | _ => True
  end.
Proof.
  intros Hs. cbv zeta. destruct r; try done;
    cbn [serve handler route_identity] in *.
  - unfold menu_create, after, insert_menu, bound in *.
    repeat case_match; simplify_eq/=; try (by destruct Hs).
    all: by rewrite newest_leads.
  - unfold customer_create, after, insert_user, bound in *.
    repeat case_match; simplify_eq/=; try (by destruct Hs).
    all: by rewrite newest_leads.
  - intros [cu Hcu].
    destruct (order_create_succeeded _ _ _ _ Hs)
      as (u & i & q & item & Hn & Hm & Hins).
    apply order_numbers_Some in Hn as (Hu & Hi & Hq & _).
    unfold referenced_customer in Hcu. rewrite Hu in Hcu. simpl in Hcu.
    unfold insert_checkout in Hins. apply bound_Ok in Hins as [_ Hins].
    destruct (fk_ok _ _ _); [| done].
    injection Hins as <-. simpl.
    pose proof (newest_leads (checkout d)
      (Checkout.Row (Some u) (Some q) (Some i) (Some (price_or_0 item))
         (Some (price_or_0 item * q))
         (Some (strip (get_or f "status" default_status)))
         (or_None (strip (get_or f "notes" []))) (Some now))) as Hhead.
    apply head_Some in Hhead as [rest ->]. simpl.
    unfold join_order. simpl. rewrite Hcu. simpl. rewrite Hm. done.
Qed.

Lemma length_omap_le {A B} (g : A → option B) l :
  (length (omap g l) ≤ length l)%nat.
Proof. induction l as [|x l IH]; csimpl; [done |]. destruct (g x); csimpl; lia. Qed.

Lemma length_omap_all {A B} (g : A → option B) l :
  Forall (λ x, is_Some (g x)) l → length (omap g l) = length l.
Proof.
  induction 1 as [|x l [y Hy] _ IH]; csimpl; [done |].
  rewrite Hy. csimpl. by rewrite IH.
Qed.

(** The order listing and the order counter can disagree: the counter
    counts every row of [checkout], the listing leaves out an order whose
    customer or menu item has no row. The listing is never longer than the
    counter says, and exactly as long when every order names an existing
    customer and an existing menu item. *)
Theorem order_listing_and_counter d :
  let listing := (fetch_dashboard_data d).1.2 in
  let counter := orders (fetch_dashboard_data d).2 in
  Z.of_nat (length listing) ≤ counter
  ∧ (∀ k c, checkout d !! k = Some c →
       (Checkout.UserID c ≫= (user d !!.)) = None
       ∨ (Checkout.ItemID c ≫= (menu d !!.)) = None →
       ∀ o, o ∈ listing → Order.OrderID o ≠ k)
  ∧ ((∀ k c, checkout d !! k = Some c →
        is_Some (Checkout.UserID c ≫= (user d !!.))
        ∧ is_Some (Checkout.ItemID c ≫= (menu d !!.))) →
     Z.of_nat (length listing) = counter).
Proof.
  cbv zeta. simpl. unfold COUNT.
  assert (length (order_by_ID_desc (checkout d)) = size (checkout d)) as Hlen
    by (by rewrite order_by_ID_desc_perm, length_map_to_list).
  split_and!.
  - rewrite <- Hlen. apply inj_le, length_omap_le.
  - intros k c Hc Hmiss o ([k' c'] & Hc' & Hj)%list_elem_of_omap Hk.
    apply order_by_ID_desc_elem in Hc'.
    apply join_order_Some in Hj as (uid & u & iid & m & Hu & Hu' & Hi & Hi' & ->).
    simpl in *. simplify_eq.
    destruct Hmiss as [Hmiss | Hmiss];
      [rewrite Hu in Hmiss | rewrite Hi in Hmiss]; simpl in Hmiss; congruence.
  - intros Hall. rewrite <- Hlen. f_equal. apply length_omap_all.
    apply Forall_forall. intros [k c] Hc%order_by_ID_desc_elem.
    destruct (Hall _ _ Hc) as [[u Hu] [m Hm]].
    destruct (Checkout.UserID c) as [uid|] eqn:Huid; [| done].
    destruct (Checkout.ItemID c) as [iid|] eqn:Hiid; [| done].
    simpl in Hu, Hm. unfold join_order. simpl. rewrite Huid. simpl.
    rewrite Hu. simpl. rewrite Hiid. simpl. rewrite Hm. done.
Qed.

(** ** What an update makes of omitted fields *)

(** An accepted update writes the whole row from the form: what the form
    leaves out is not kept from the old row but reset. A menu update
    without category sets the generic label and without [is_available]
    sets IsAvailable to 0; an order update without quantity sets it to 1,
    without status sets the default status and without notes sets NULL. *)
Theorem update_resets_omitted_fields fk id f d :
  (succeeded (menu_update id f d).1 →
   ∃ row, menu (menu_update id f d).2 !! id = Some row
     ∧ (f !! "category" = None → Menu.Category row = Some default_category)
     ∧ (f !! "is_available" = None → Menu.IsAvailable row = Some 0))
  ∧ (succeeded (order_update fk id f d).1 →
     ∃ o, checkout (order_update fk id f d).2 !! id = Some o
       ∧ (f !! "quantity" = None → Checkout.quantity o = Some 1)
       ∧ (f !! "status" = None → Checkout.Status o = Some default_status)
       ∧ (f !! "notes" = None → Checkout.Notes o = None)).
Proof.
  split.
  - intros [m Hs]. unfold menu_update in *.
    destruct (select_where_ID id (menu d)) as [[old|]|e] eqn:Hsel;
      [| done | done].
    apply select_where_ID_Ok in Hsel as [_ Hold]. symmetry in Hold.
    destruct (bool_decide (strip (get_or f "name" []) = [])); [done |].
    destruct (int (strip (get_or f "price" (lit "0")))) as [p|]; [| done].
    destruct (p <? 0); [done |]. unfold after, update_menu, bound in *.
    destruct (forallb int64 _); [| done]. simpl.
    rewrite lookup_alter_eq, Hold. simpl. eexists. split; [done |]. simpl.
    split.
    + intros Hc. by rewrite (get_or_absent _ _ _ Hc).
    + intros Ha. rewrite bool_decide_eq_false_2; [done |]. by rewrite Ha.
  - intros Hs.
    destruct (order_update_succeeded _ _ _ _ Hs)
      as (old & u & i & q & item & Hold & Hn & Hm & Hupd).
    unfold update_checkout in Hupd. apply bound_Ok in Hupd as [_ Hupd].
    rewrite Hold in Hupd.
    destruct (fk_ok _ _ _); [| done]. injection Hupd as <-. simpl.
    rewrite lookup_insert_eq. eexists. split; [done |]. simpl. split_and!.
    + intros Hq. rewrite (get_or_absent _ _ _ Hq) in Hn.
      apply order_numbers_Some in Hn as (_ & _ & Hq1 & _).
      vm_compute in Hq1. by injection Hq1 as <-.
    + intros Hst. by rewrite (get_or_absent _ _ _ Hst).
    + intros Hno. by rewrite (get_or_absent _ _ _ Hno).
Qed.

(** ** Deleting an order *)

(** Deleting an existing order removes that row and no other and takes
    one off the order counter. When no stored total is negative and the
    revenue could be computed before, it can be afterwards, and is smaller
    by the TotalPrice of the order. *)
Theorem order_delete_removes order_id o d :
  checkout d !! order_id = Some o →
  let d' := (order_delete order_id d).2 in
  let s := (fetch_dashboard_data d).2 in
  let s' := (fetch_dashboard_data d').2 in
  (∀ k, checkout d' !! k = if decide (order_id = k) then None else checkout d !! k)
  ∧ user d' = user d ∧ menu d' = menu d
  ∧ customers s' = customers s ∧ items s' = items s
  ∧ orders s' = orders s - 1
  ∧ ((∀ k o', checkout d !! k = Some o' → 0 ≤ total_of o') →
     ∀ v, revenue s = Ok v → revenue s' = Ok (v - total_of o)).
Proof.
  intros Ho. cbv zeta. unfold order_delete, delete_checkout. cbn [snd].
  split; [intros k; apply lookup_delete |]. split; [done |]. split; [done |].
  split; [done |]. split; [done |]. split.
  - cbn. unfold COUNT.
    assert (size (checkout d) ≠ 0%nat) as Hne.
    { intros Hz%map_size_empty_iff. by rewrite Hz, lookup_empty in Ho. }
    rewrite map_size_delete, Ho. lia.
  - intros Hpos v Hv.
    assert (foldr Z.add 0 (total_of <$> (map_to_list (checkout d)).*2)
            = total_of o
              + foldr Z.add 0 (total_of <$> (map_to_list
                                 (delete order_id (checkout d))).*2)) as Hsum.
    { rewrite (foldr_add_perm (total_of <$> (map_to_list (checkout d)).*2)
                 (total_of o :: (total_of <$> (map_to_list
                                   (delete order_id (checkout d))).*2)));
        [done |].
      by rewrite <- (map_to_list_delete _ _ _ Ho). }
    assert (∀ k o', delete order_id (checkout d) !! k = Some o' →
              0 ≤ total_of o') as Hpos'.
    { intros k o' [_ Hk]%lookup_delete_Some. by apply (Hpos k). }
    rewrite (revenue_nonneg d Hpos) in Hv. cbv zeta in Hv.
    case_bool_decide as Hfit; [| done]. injection Hv as <-.
    rewrite revenue_nonneg by done. cbv zeta. cbn [checkout].
    pose proof (foldr_add_nonneg
      (total_of <$> (map_to_list (delete order_id (checkout d))).*2)) as Hrest.
    rewrite bool_decide_eq_true_2; [f_equal; lia |].
    specialize (Hpos _ _ Ho). lia.
Qed.

(** ** The further properties on the example database *)

Lemma example_db_integrity : integrity example_db.
Proof.
  intros k o Ho. unfold example_db in Ho. simpl in Ho.
  apply lookup_singleton_Some in Ho as [_ <-]. by vm_compute.
Qed.

Lemma example_db_priced k o : checkout example_db !! k = Some o → priced o.
Proof.
  intros Ho. unfold example_db in Ho. simpl in Ho.
  apply lookup_singleton_Some in Ho as [_ <-]. by vm_compute.
Qed.

Lemma routes_keep_other_tables_witness :
  let f : form := {[ "name" := lit "Cake"; "price" := lit "30000" ]} in
  user (serve true (lit "2024-01-02 09:00:00") (POST_menu f) example_db).2
  = user example_db
  ∧ checkout (serve true (lit "2024-01-02 09:00:00") (POST_menu f) example_db).2
    = checkout example_db.
Proof.
  exact (routes_keep_other_tables true (lit "2024-01-02 09:00:00")
           (POST_menu {[ "name" := lit "Cake"; "price" := lit "30000" ]})
           example_db).
Defined.



Lemma repeated_request_witness :
  let now := lit "2024-01-02 09:00:00" in
  creates (POST_menu_delete 1) = false
  ∧ serve true now (POST_menu_delete 1)
      (serve true now (POST_menu_delete 1) example_db).2
    = serve true now (POST_menu_delete 1) example_db.
Proof.
  split; [reflexivity |].
  exact (repeated_request true _ _ (POST_menu_delete 1) example_db eq_refl).
Defined.

Lemma integrity_is_kept_witness :
  integrity example_db
  ∧ integrity (serve true (lit "2024-01-02 09:00:00") (POST_customers_delete 1)
                 example_db).2.
Proof.
  split; [exact example_db_integrity |].
  exact (integrity_is_kept true (lit "2024-01-02 09:00:00")
           (POST_customers_delete 1) example_db example_db_integrity
           (or_introl eq_refl)).
Defined.

Lemma totals_are_kept_witness :
  let r := POST_orders {[ "user_id" := lit "1"; "item_id" := lit "1";
                          "quantity" := lit "2" ]} in
  (∀ k o, checkout example_db !! k = Some o → priced o)
  ∧ (∀ k o, checkout (serve true (lit "2024-01-02 09:00:00") r example_db).2 !! k
            = Some o → priced o).
Proof.
  split; [exact example_db_priced |].
  exact (totals_are_kept true (lit "2024-01-02 09:00:00")
           (POST_orders {[ "user_id" := lit "1"; "item_id" := lit "1";
                           "quantity" := lit "2" ]})
           example_db example_db_priced).
Defined.

Lemma create_then_delete_witness :
  let now := lit "2024-01-02 09:00:00" in
  let r := POST_menu {[ "name" := lit "Cake"; "price" := lit "30000" ]} in
  undo r example_db = Some (POST_menu_delete 2)
  ∧ (serve true now (POST_menu_delete 2) (serve true now r example_db).2).2
    = example_db.
Proof.
  assert (undo (POST_menu {[ "name" := lit "Cake"; "price" := lit "30000" ]})
            example_db = Some (POST_menu_delete 2)) as Hundo
    by (vm_compute; reflexivity).
  split; [exact Hundo |].
  exact (create_then_delete true (lit "2024-01-02 09:00:00") _ _ example_db
           example_db_integrity Hundo).
Defined.

Lemma order_for_unknown_customer_witness :
  let now := lit "2024-01-02 09:00:00" in
  let f : form := {[ "user_id" := lit "7"; "item_id" := lit "1";
                     "quantity" := lit "2" ]} in
  user example_db !! 7 = None
  ∧ order_create true now f example_db = (error_500 IntegrityError, example_db)
  ∧ succeeded (order_create false now f example_db).1
  ∧ ¬ integrity (order_create false now f example_db).2.
Proof.
  intros now f.
  assert (user example_db !! 7 = None) as Hmiss by (vm_compute; reflexivity).
  split; [exact Hmiss |].
  pose proof (λ fk, order_for_unknown_customer fk now f example_db 7 1 2
                (Menu.Row (Some (lit "Tea")) (Some 15000) (Some default_category)
                   (Some 1))) as H.
  assert (0 < 2) as Hpos by lia.
  destruct (H true) as [Ht _];
    [vm_compute; lia | vm_compute; lia | vm_compute; lia
    | vm_compute; reflexivity | vm_compute; reflexivity | vm_compute; reflexivity
    | exact Hpos | vm_compute; reflexivity | exact Hmiss
    | vm_compute; reflexivity |].
  destruct (H false) as [_ Hf];
    [vm_compute; lia | vm_compute; lia | vm_compute; lia
    | vm_compute; reflexivity | vm_compute; reflexivity | vm_compute; reflexivity
    | exact Hpos | vm_compute; reflexivity | exact Hmiss
    | vm_compute; reflexivity |].
  destruct (Ht eq_refl) as [Hc _]. destruct (Hf eq_refl) as [[Hs Hi] _].
  split_and!; [exact Hc | exact Hs | exact Hi].
Defined.

Lemma menu_form_edges_witness :
  let f : form := {[ "name" := lit "Water" ]} in
  let blank : form := {[ "name" := lit "  "; "price" := lit "5" ]} in
  (Menu.Price <$> menu (menu_create f example_db).2 !! next_rowid (menu example_db))
  = Some (Some 0)
  ∧ menu_create blank example_db
    = (redirect_dashboard danger item_name_empty, example_db).
Proof.
  intros f blank.
  destruct (menu_form_edges f example_db) as [_ Hprice].
  destruct (menu_form_edges blank example_db) as [Hname _].
  split.
  - destruct Hprice as [Hdefault _]; [vm_compute; discriminate |].
    destruct Hdefault as [_ Hp]; [left; vm_compute; reflexivity |]. exact Hp.
  - apply Hname. vm_compute. repeat constructor.
Defined.

Lemma order_create_defaults_witness :
  let now := lit "2024-01-02 09:00:00" in
  let f : form := {[ "user_id" := lit "1"; "item_id" := lit "1" ]} in
  succeeded (order_create true now f example_db).1
  ∧ ∃ o, checkout (order_create true now f example_db).2
         = <[next_rowid (checkout example_db) := o]> (checkout example_db)
      ∧ Checkout.CreatedAt o = Some now
      ∧ Checkout.quantity o = Some 1
      ∧ Checkout.Status o = Some default_status
      ∧ Checkout.Notes o = None.
Proof.
  intros now f.
  assert (succeeded (order_create true now f example_db).1) as Hs
    by (vm_compute; eexists; reflexivity).
  split; [exact Hs |].
  destruct (order_create_defaults true now f example_db Hs)
    as (o & Hd & Hc & Hq & Hst & Hn & _).
  exists o. split_and!.
  - exact Hd.
  - exact Hc.
  - apply Hq. vm_compute. reflexivity.
  - apply Hst. vm_compute. reflexivity.
  - apply Hn. vm_compute. constructor.
Defined.

Lemma customer_create_adds_row_witness :
  let now := lit "2024-01-02 09:00:00" in
  let f : form := {[ "first_name" := lit " Sara"; "last_name" := lit "Karimi ";
                     "phone" := lit "9350000000" ]} in
  customer_create now f example_db
  = (redirect_dashboard success customer_added,
     Db (<[next_rowid (user example_db) :=
             User.Row (Some (strip (get_or f "first_name" [])))
                      (Some (strip (get_or f "last_name" [])))
                      (Some 9350000000) (Some now)]> (user example_db))
        (menu example_db) (checkout example_db))
  ∧ user example_db !! next_rowid (user example_db) = None.
Proof.
  intros now f. apply (customer_create_adds_row now f example_db 9350000000).
  - vm_compute. discriminate.
  - vm_compute. discriminate.
  - vm_compute. lia.
  - vm_compute. reflexivity.
  - lia.
Defined.

Lemma accepted_create_counts_witness :
  let now := lit "2024-01-02 09:00:00" in
  let r := POST_orders {[ "user_id" := lit "1"; "item_id" := lit "1";
                          "quantity" := lit "2" ]} in
  succeeded (serve true now r example_db).1
  ∧ (fetch_dashboard_data (serve true now r example_db).2).2
    = Stats 1 1 2 (Ok 75000).
Proof.
  intros now r.
  assert (succeeded (serve true now r example_db).1) as Hs
    by (vm_compute; eexists; reflexivity).
  split; [exact Hs |].
  pose proof (accepted_create_counts true now r example_db Hs) as H.
  cbv zeta in H. destruct H as (item & q & Hitem & Hq & ->).
  vm_compute in Hitem. injection Hitem as <-.
  vm_compute in Hq. injection Hq as <-.
  vm_compute. reflexivity.
Defined.

Lemma newest_first_witness :
  let now := lit "2024-01-02 09:00:00" in
  let r := POST_menu {[ "name" := lit "Cake"; "price" := lit "30000" ]} in
  fst <$> head (fetch_dashboard_data (serve true now r example_db).2).1.1.1
  = Some (next_rowid (menu example_db)).
Proof.
  intros now r. apply (newest_first true now r example_db).
  vm_compute. eexists. reflexivity.
Defined.

Lemma order_listing_and_counter_witness :
  Z.of_nat (length (fetch_dashboard_data example_db).1.2)
  = orders (fetch_dashboard_data example_db).2.
Proof.
  destruct (order_listing_and_counter example_db) as (_ & _ & Hall).
  apply Hall. intros k c Hc. unfold example_db in Hc. simpl in Hc.
  apply lookup_singleton_Some in Hc as [_ <-].
  split; vm_compute; eexists; reflexivity.
Defined.

Lemma update_resets_omitted_fields_witness :
  let f : form := {[ "name" := lit "Tea"; "price" := lit "16000" ]} in
  succeeded (menu_update 1 f example_db).1
  ∧ ∃ row, menu (menu_update 1 f example_db).2 !! 1 = Some row
           ∧ Menu.IsAvailable row = Some 0.
Proof.
  intros f.
  assert (succeeded (menu_update 1 f example_db).1) as Hs
    by (vm_compute; eexists; reflexivity).
  split; [exact Hs |].
  destruct (update_resets_omitted_fields true 1 f example_db) as [Hmenu _].
  destruct (Hmenu Hs) as (row & Hrow & _ & Ha).
  exists row. split; [exact Hrow |]. apply Ha. vm_compute. reflexivity.
Defined.

Lemma order_delete_removes_witness :
  (∀ k o, checkout example_db !! k = Some o → 0 ≤ total_of o)
  ∧ revenue (fetch_dashboard_data example_db).2 = Ok 45000
  ∧ orders (fetch_dashboard_data (order_delete 1 example_db).2).2
    = orders (fetch_dashboard_data example_db).2 - 1
  ∧ revenue (fetch_dashboard_data (order_delete 1 example_db).2).2
    = Ok (45000 - 45000).
Proof.
  assert (∀ k o, checkout example_db !! k = Some o → 0 ≤ total_of o) as Hpos.
  { intros k o Hk. unfold example_db in Hk. simpl in Hk.
    apply lookup_singleton_Some in Hk as [_ <-]. by vm_compute. }
  assert (revenue (fetch_dashboard_data example_db).2 = Ok 45000) as Hv
    by (vm_compute; reflexivity).
  destruct (order_delete_removes 1
              (Checkout.Row (Some 1) (Some 3) (Some 1) (Some 15000) (Some 45000)
                 (Some default_status) None (Some (lit "2024-01-01 10:05:00")))
              example_db) as (_ & _ & _ & _ & _ & Ho & Hr);
    [vm_compute; reflexivity |].
  split_and!; [exact Hpos | exact Hv | exact Ho | exact (Hr Hpos 45000 Hv)].
Defined.


Module MigrationMore.
Import Migration MigrationTerms MigrationFacts.

Lemma add_if_missing_absent t c v bf d :
  ¬ present t c d →
  add_if_missing (t, c, v, bf) d =
  match ALTER_TABLE_ADD_COLUMN t c v d with
  | Ok d1 =>
      match bf with
      | Some w => execute (UPDATE_SET_COALESCE t c w) d1
      | None => (Ok (), d1)
      end
  | Raise e => (Raise e, d)
  end.
Proof.
  intros Hp. unfold add_if_missing, has_column, present in *.
  unfold mbind, proc_bind, query, mret, proc_ret, execute. simpl.
  rewrite bool_decide_eq_false_2 by done. simpl.
  destruct bf; by destruct (ALTER_TABLE_ADD_COLUMN t c v d).
Qed.

(** A migration whose column is missing and can be added adds it, and
    every row that was there reads the filled-in default in it. *)
Lemma add_if_missing_adds t c v bf d tb :
  ¬ present t c d →
  d !! t = Some tb →
  resolve c (columns tb) = None →
  add_if_missing (t, c, v, bf) d
  = (Ok (), <[t := Table (columns tb ++ [Column c v])
                         (insert c (filled v bf) <$> rows tb)]> d).
Proof.
  intros Hp Ht Hr. rewrite add_if_missing_absent by done.
  unfold ALTER_TABLE_ADD_COLUMN. rewrite Ht, Hr.
  destruct bf as [w|]; [| done].
  unfold execute, UPDATE_SET_COALESCE. rewrite lookup_insert_eq. simpl.
  rewrite (resolve_added _ _ _ Hr). simpl. rewrite insert_insert_eq.
  do 3 f_equal. rewrite <- list_fmap_compose. apply list_fmap_ext.
  intros i r _. simpl. rewrite lookup_insert_eq.
  destruct v; simpl; by rewrite ?insert_insert_eq.
Qed.

Lemma add_if_missing_raises t c v bf d :
  ¬ present t c d →
  (∀ tb, d !! t = Some tb → resolve c (columns tb) ≠ None) →
  add_if_missing (t, c, v, bf) d = (Raise OperationalError, d).
Proof.
  intros Hp Hno. rewrite add_if_missing_absent by done.
  unfold ALTER_TABLE_ADD_COLUMN. destruct (d !! t) as [tb|] eqn:Ht; [| done].
  destruct (resolve c (columns tb)) eqn:Hr; [done |]. by destruct (Hno tb).
Qed.

Lemma present_migratable t c v bf d : present t c d → migratable d (t, c, v, bf).
Proof.
  unfold present, table_info, migratable. simpl.
  destruct (d !! t) as [tb|]; [eauto | by intros ?%elem_of_nil].
Qed.

(** One migration runs through exactly when it is migratable. *)
Lemma add_if_missing_Ok_iff m d :
  (add_if_missing m d).1 = Ok () ↔ migratable d m.
Proof.
  destruct m as [[[t c] v] bf].
  destruct (decide (c ∈ name <$> table_info t d)) as [Hp | Hp].
  { rewrite add_if_missing_present by done. split; [| done].
    intros _. by apply present_migratable. }
  split.
  - intros Hok. unfold migratable. simpl.
    destruct (d !! t) as [tb|] eqn:Ht.
    + exists tb. split; [done |]. right.
      destruct (resolve c (columns tb)) eqn:Hr; [| done].
      rewrite add_if_missing_raises in Hok; [done | done |].
      intros tb' ?. simplify_eq. by rewrite Hr.
    + rewrite add_if_missing_raises in Hok;
        [done | done | by intros ? ?; simplify_eq].
  - intros (tb & Ht & [Hin | Hr]); cbn [fst snd] in *.
    + destruct Hp. unfold table_info. by rewrite Ht.
    + by rewrite (add_if_missing_adds _ _ _ _ _ tb).
Qed.

Lemma resolve_snoc c' cols x :
  resolve c' (cols ++ [x])
  = match resolve c' cols with
    | Some y => Some y
    | None => if bool_decide (lower (name x) = lower c') then Some x else None
    end.
Proof.
  unfold resolve. induction cols as [|col cols IH]; simpl; [done |].
  by destruct (bool_decide (lower (name col) = lower c')).
Qed.

Lemma names_snoc (cols : list column) c v c' :
  c' ∈ name <$> (cols ++ [Column c v])%list ↔ c' ∈ name <$> cols ∨ c' = c.
Proof.
  rewrite fmap_app, elem_of_app. change (name <$> [Column c v]) with [c].
  by rewrite list_elem_of_singleton.
Qed.

(** Adding a column leaves the other migrations as migratable as they
    were. *)
Lemma migratable_after_add t c v rows' tb d m :
  d !! t = Some tb →
  target m ≠ (t, lower c) →
  migratable (<[t := Table (columns tb ++ [Column c v]) rows']> d) m
  ↔ migratable d m.
Proof.
  destruct m as [[[t' c'] v'] bf']. unfold target, migratable.
  cbn [fst snd]. intros Ht Hne. destruct (decide (t = t')) as [<- | Htne].
  - assert (lower c ≠ lower c') as Hc by congruence.
    assert (c' ≠ c) as Hc' by congruence.
    rewrite lookup_insert_eq. split.
    + intros (tb1 & [= <-] & H). cbn [columns] in H. exists tb.
      split; [done |]. rewrite names_snoc, resolve_snoc in H.
      cbn [name] in H. rewrite bool_decide_eq_false_2 in H by done.
      destruct H as [[H | H] | H]; [by left | done |].
      right. by destruct (resolve c' (columns tb)).
    + intros (tb1 & Htb1 & H). simplify_eq. eexists. split; [done |].
      cbn [columns]. rewrite names_snoc, resolve_snoc. cbn [name].
      rewrite bool_decide_eq_false_2 by done.
      destruct H as [H | H]; [by left; left | right; by rewrite H].
  - by rewrite lookup_insert_ne.
Qed.

Lemma absent_after_add t c v rows' tb d t' c' :
  d !! t = Some tb →
  (t', lower c') ≠ (t, lower c) →
  ¬ present t' c' d →
  ¬ present t' c' (<[t := Table (columns tb ++ [Column c v]) rows']> d).
Proof.
  unfold present, table_info. intros Ht Hne Hp.
  destruct (decide (t = t')) as [<- | Htne].
  - rewrite lookup_insert_eq. rewrite Ht in Hp. cbn [columns].
    rewrite names_snoc. intros [H | ->]; [done | done].
  - by rewrite lookup_insert_ne.
Qed.

Lemma target_differs m (ms : list (string * string * value * option value))
    t c v bf :
  target (t, c, v, bf) ∉ target <$> ms → m ∈ ms → target m ≠ (t, lower c).
Proof.
  intros Hnot Hm Heq. apply Hnot. apply list_elem_of_fmap. exists m.
  split; [by rewrite Heq | done].
Qed.

(** A list of migrations of different columns runs through exactly when
    each of them is migratable at the start. *)
Lemma add_all_Ok_iff ms d :
  NoDup (target <$> ms) →
  (add_all ms d).1 = Ok () ↔ Forall (migratable d) ms.
Proof.
  revert d. induction ms as [|m ms IH]; intros d Hnd; [done |].
  rewrite fmap_cons in Hnd. apply NoDup_cons in Hnd as [Hm Hnd].
  rewrite add_all_cons, Forall_cons.
  destruct m as [[[t c] v] bf].
  destruct (decide (c ∈ name <$> table_info t d)) as [Hp | Hp].
  { rewrite add_if_missing_present by done. rewrite IH by done.
    pose proof (present_migratable t c v bf d Hp). tauto. }
  destruct (d !! t) as [tb|] eqn:Ht.
  2: { rewrite add_if_missing_raises; [| done | by intros ? ?; simplify_eq].
       split; [done |]. intros [(tb & Htb & _) _]. simpl in Htb. congruence. }
  destruct (resolve c (columns tb)) as [col|] eqn:Hr.
  { rewrite add_if_missing_raises;
      [| done | by intros ? ?; simplify_eq; rewrite Hr].
    split; [done |]. intros [(tb' & Htb & [Hin | Hnone]) _]; cbn [fst snd] in *.
    - destruct Hp. unfold table_info. rewrite Ht. by simplify_eq.
    - simplify_eq; congruence. }
  rewrite (add_if_missing_adds _ _ _ _ _ tb) by done. rewrite IH by done.
  rewrite !Forall_forall. split.
  - intros Hall. split; [exists tb; split; [done | by right] |].
    intros m' Hm'. eapply migratable_after_add; [done | | by apply Hall].
    by eapply target_differs.
  - intros [_ Hall] m' Hm'. eapply migratable_after_add; [done | | by apply Hall].
    by eapply target_differs.
Qed.

Lemma add_all_Ok ms d :
  (add_all ms d).1 = Ok () → add_all ms d = (Ok (), (add_all ms d).2).
Proof. destruct (add_all ms d) as [[[]|] d']; by intros. Qed.

Lemma same_columns_refl ms : Forall2 same_columns ms ms.
Proof. by apply Forall_Forall2_diag, Forall_true. Qed.

(** When a list of migrations has run through, each of its columns is
    there. *)
Lemma add_all_present ms d m :
  (add_all ms d).1 = Ok () → m ∈ ms → present m.1.1.1 m.1.1.2 (add_all ms d).2.
Proof.
  revert d. induction ms as [|[[[t c] v] bf] ms IH]; intros d Hok Hm;
    [by apply elem_of_nil in Hm |].
  rewrite add_all_cons in *.
  destruct (add_if_missing_cases t c v bf d)
    as [(e & Hraise & _) | (d1 & Hd1 & Hp & _)];
    [by rewrite Hraise in Hok |].
  rewrite Hd1 in *. apply elem_of_cons in Hm as [-> | Hm]; [| by apply IH].
  simpl. eapply extends_present; [| done].
  apply (add_all_settles ms ms d1 (same_columns_refl ms)).
Qed.

(** When a list of migrations of different columns has run through, a
    column that was missing reads the filled-in default in every row of its
    table. *)
Lemma add_all_fills ms d t c v bf :
  NoDup (target <$> ms) →
  (t, c, v, bf) ∈ ms →
  ¬ present t c d →
  (add_all ms d).1 = Ok () →
  ∀ tb', (add_all ms d).2 !! t = Some tb' →
         Forall (λ r, r !! c = Some (filled v bf)) (rows tb').
Proof.
  revert d. induction ms as [|[[[t0 c0] v0] bf0] ms IH]; intros d Hnd Hm Hp Hok;
    [by apply elem_of_nil in Hm |].
  rewrite fmap_cons in Hnd. apply NoDup_cons in Hnd as [Hm0 Hnd].
  rewrite add_all_cons in *.
  apply elem_of_cons in Hm as [Heq | Hm].
  - simplify_eq.
    destruct (add_if_missing_Ok_iff (t0, c0, v0, bf0) d) as [Hmig _].
    destruct Hmig as (tb & Ht & [Hin | Hr]); cbn [fst snd] in *.
    { by destruct (add_if_missing (t0, c0, v0, bf0) d) as [[[]|] ?]. }
    { destruct Hp. unfold present, table_info. by rewrite Ht. }
    rewrite (add_if_missing_adds _ _ _ _ _ tb) in * by done.
    intros tb' Htb'.
    match type of Htb' with
    | (add_all ms ?d1).2 !! _ = _ =>
        destruct (add_all_settles ms ms d1 (same_columns_refl ms)) as [Hext _]
    end.
    destruct (Hext t0 _ (lookup_insert_eq _ _ _)) as (tb1 & Htb1 & _ & Hrows).
    simplify_eq. simpl in Hrows.
    apply Forall2_fmap_l in Hrows.
    eapply Forall2_Forall_r; [exact Hrows |].
    apply Forall_true. intros r r' Hagree. rewrite Hagree.
    + apply lookup_insert_eq.
    + apply names_snoc. by right.
  - destruct (add_if_missing_Ok_iff (t0, c0, v0, bf0) d) as [Hmig _].
    assert ((add_if_missing (t0, c0, v0, bf0) d).1 = Ok ()) as Hok0
      by (by destruct (add_if_missing (t0, c0, v0, bf0) d) as [[[]|] ?]).
    destruct (decide (c0 ∈ name <$> table_info t0 d)) as [Hp0 | Hp0].
    { rewrite add_if_missing_present in * by done. by apply IH. }
    destruct (Hmig Hok0) as (tb & Ht & [Hin | Hr]); cbn [fst snd] in *.
    { destruct Hp0. unfold table_info. by rewrite Ht. }
    rewrite (add_if_missing_adds _ _ _ _ _ tb) in * by done.
    apply IH; [done | done | | done].
    eapply absent_after_add; [done | | done].
    intros Heq. apply Hm0. apply list_elem_of_fmap.
    exists (t, c, v, bf). by split.
Qed.

(** Membership in a list given by its elements. *)
Ltac listed :=
  repeat first [apply list_elem_of_here | apply list_elem_of_further].

Lemma migrations_targets now : NoDup (target <$> migrations now).
Proof.
  apply (bool_decide_unpack _). vm_compute. exact I.
Qed.

(** [init_db] runs through exactly when, once [schema.sql] has been run,
    each of the three tables exists and each of the six columns is there
    under its exact name or is absent under every spelling; otherwise an
    ALTER TABLE raises (no such table, or a duplicate column name). *)
Theorem init_db_runs_iff schema_sql now d :
  (init_db schema_sql now d).1 = Ok ()
  ↔ Forall (migratable (after_script schema_sql d)) (migrations now).
Proof.
  rewrite init_db_unfold. apply add_all_Ok_iff, migrations_targets.
Qed.

(** When [init_db] has run through, the six columns the handlers write are
    there, whatever the database was before. *)
Theorem init_db_adds_columns schema_sql now d :
  (init_db schema_sql now d).1 = Ok () →
  let d' := (init_db schema_sql now d).2 in
  present "user" "CreatedAt" d'
  ∧ present "menu" "Category" d' ∧ present "menu" "IsAvailable" d'
  ∧ present "checkout" "CreatedAt" d' ∧ present "checkout" "Status" d'
  ∧ present "checkout" "Notes" d'.
Proof.
  rewrite !init_db_unfold. intros Hok. cbv zeta.
  pose proof (λ m, add_all_present (migrations now) _ m Hok) as H.
  split_and!.
  - apply (H ("user", "CreatedAt", NULL, Some (TEXT now))). listed.
  - apply (H ("menu", "Category", TEXT default_category, None)). listed.
  - apply (H ("menu", "IsAvailable", INTEGER 1, None)). listed.
  - apply (H ("checkout", "CreatedAt", NULL, Some (TEXT now))). listed.
  - apply (H ("checkout", "Status", TEXT default_status, None)). listed.
  - apply (H ("checkout", "Notes", NULL, None)). listed.
Qed.

(** When [init_db] has run through and one of the six columns was missing
    at its start, every row of that table reads the column's default
    afterwards: the time of the run in CreatedAt, the generic label in
    Category, 1 in IsAvailable, the default status in Status and NULL in
    Notes. *)
Theorem init_db_fills_new_columns schema_sql now d t c x :
  (init_db schema_sql now d).1 = Ok () →
  (t, c, x) ∈ [ ("user", "CreatedAt", TEXT now);
                ("menu", "Category", TEXT default_category);
                ("menu", "IsAvailable", INTEGER 1);
                ("checkout", "CreatedAt", TEXT now);
                ("checkout", "Status", TEXT default_status);
                ("checkout", "Notes", NULL) ] →
  ¬ present t c (after_script schema_sql d) →
  ∀ tb, (init_db schema_sql now d).2 !! t = Some tb →
        Forall (λ r, r !! c = Some x) (rows tb).
Proof.
  rewrite !init_db_unfold. intros Hok Hin Hp.
  assert (∃ v bf, (t, c, v, bf) ∈ migrations now ∧ filled v bf = x)
    as (v & bf & Hm & <-).
  { unfold migrations. rewrite !elem_of_cons, elem_of_nil in Hin.
    destruct_or!; simplify_eq; (eexists _, _; split; [listed | done]). }
  by apply (add_all_fills (migrations now) _ t c v bf (migrations_targets now)).
Qed.

Lemma init_db_runs_iff_witness :
  (init_db (Some []) (lit "2024-02-02 08:00:00") legacy_store).1 = Ok ()
  ∧ Forall (migratable (after_script (Some []) legacy_store))
           (migrations (lit "2024-02-02 08:00:00")).
Proof.
  assert ((init_db (Some []) (lit "2024-02-02 08:00:00") legacy_store).1 = Ok ())
    as Hok by (vm_compute; reflexivity).
  split; [exact Hok |].
  exact (proj1 (init_db_runs_iff _ _ _) Hok).
Defined.

Lemma init_db_adds_columns_witness :
  present "menu" "IsAvailable"
    (init_db (Some []) (lit "2024-02-02 08:00:00") legacy_store).2.
Proof.
  assert ((init_db (Some []) (lit "2024-02-02 08:00:00") legacy_store).1 = Ok ())
    as Hok by (vm_compute; reflexivity).
  exact (proj1 (proj2 (proj2 (init_db_adds_columns _ _ _ Hok)))).
Defined.

Lemma init_db_fills_new_columns_witness :
  ¬ present "user" "CreatedAt" (after_script (Some []) legacy_store)
  ∧ ∀ tb, (init_db (Some []) (lit "2024-02-02 08:00:00") legacy_store).2 !! "user"
          = Some tb →
          Forall (λ r, r !! "CreatedAt" = Some (TEXT (lit "2024-02-02 08:00:00")))
                 (rows tb).
Proof.
  assert (¬ present "user" "CreatedAt" (after_script (Some []) legacy_store))
    as Habsent.
  { unfold present. apply (proj1 (bool_decide_eq_false _)).
    vm_compute. reflexivity. }
  split; [exact Habsent |].
  apply (init_db_fills_new_columns (Some []) (lit "2024-02-02 08:00:00")
           legacy_store "user" "CreatedAt").
  - vm_compute. reflexivity.
  - apply list_elem_of_here.
  - exact Habsent.
Defined.

End MigrationMore.

(** * The [money] filter *)

Module MoneyFacts.
Import Migration Money.

(** The digits [int] reads are the number they print. *)
Lemma int_digits_acc u acc :
  int_digits (Z.pos acc) true (uint_digits u)
  = Some (Z.pos (Pos.of_uint_acc u acc)).
Proof.
  revert acc. induction u; intros acc; simpl; [done | ..];
    rewrite <- IHu; f_equal; lia.
Qed.

Lemma int_digits_uint u b :
  b = true ∨ u ≠ Decimal.Nil →
  int_digits 0 b (uint_digits u) = Some (Z.of_N (Pos.of_uint u)).
Proof.
  revert b. induction u; intros b Hb; simpl.
  - by destruct Hb as [-> | ?].
  - apply IHu. by left.
  - apply (int_digits_acc u 1).
  - apply (int_digits_acc u 2).
  - apply (int_digits_acc u 3).
  - apply (int_digits_acc u 4).
  - apply (int_digits_acc u 5).
  - apply (int_digits_acc u 6).
  - apply (int_digits_acc u 7).
  - apply (int_digits_acc u 8).
  - apply (int_digits_acc u 9).
Qed.

Lemma uint_digits_are_digits u : Forall is_digit (uint_digits u).
Proof.
  induction u; simpl; constructor; try done; unfold is_digit; lia.
Qed.

Lemma rev_is_reverse {A} (l : list A) : rev l = reverse l.
Proof. apply rev_alt. Qed.

(** Nothing is stripped from a text without white space. *)
Lemma lstrip_clean sp (s : text) :
  Forall (λ c, sp c = false) s → lstrip sp s = s.
Proof. destruct 1 as [|c s Hc _]; simpl; [done | by rewrite Hc]. Qed.

Lemma strip_with_clean sp (s : text) :
  Forall (λ c, sp c = false) s → strip_with sp s = s.
Proof.
  intros Hs. unfold strip_with. rewrite !rev_is_reverse.
  rewrite (lstrip_clean _ s) by done.
  rewrite lstrip_clean by by apply Forall_reverse.
  apply reverse_involutive.
Qed.

Lemma digits_no_space u : Forall (λ c, int_isspace c = false) (uint_digits u).
Proof. induction u; simpl; by constructor. Qed.

(** [int] reads the decimal digits of a number back. *)
Lemma int_uint u :
  u ≠ Decimal.Nil → int (uint_digits u) = Some (Z.of_uint u).
Proof.
  intros Hu. unfold int. rewrite strip_with_clean by apply digits_no_space.
  unfold Z.of_uint. rewrite <- (int_digits_uint u false) by by right.
  by destruct u.
Qed.

Lemma int_minus_uint u :
  u ≠ Decimal.Nil →
  int (0x2D%N :: uint_digits u) = Some (- Z.of_uint u).
Proof.
  intros Hu. unfold int.
  rewrite strip_with_clean by (constructor; [done | apply digits_no_space]).
  unfold Z.of_uint. by rewrite (int_digits_uint u false) by by right.
Qed.

Lemma without_commas_digit c (s : text) :
  is_digit c → without_commas (c :: s) = c :: without_commas s.
Proof.
  intros Hc. unfold without_commas. rewrite filter_cons.
  case_decide; [done |]. unfold is_digit in Hc. lia.
Qed.

Lemma without_commas_comma (s : text) :
  without_commas (0x2C%N :: s) = without_commas s.
Proof. unfold without_commas. rewrite filter_cons. by case_decide. Qed.

Lemma without_commas_digits (s : text) :
  Forall is_digit s → without_commas s = s.
Proof.
  induction 1 as [|c s Hc _ IH]; [done |].
  by rewrite without_commas_digit, IH.
Qed.

(** Taking the commas out of the grouped digits gives the digits. *)
Lemma without_commas_group3 (s : text) :
  Forall is_digit s → without_commas (group3 s) = s.
Proof.
  assert (∀ n (s : text), (length s ≤ n)%nat → Forall is_digit s →
            without_commas (group3 s) = s) as H; [| by apply (H (length s))].
  clear s. induction n as [|n IH]; intros s Hn Hs.
  { destruct s; [done | simpl in Hn; lia]. }
  destruct s as [|a [|b [|c [|d s]]]];
    try (by apply without_commas_digits).
  apply Forall_cons in Hs as [Ha Hs]. apply Forall_cons in Hs as [Hb Hs].
  apply Forall_cons in Hs as [Hc Hs].
  change (group3 (a :: b :: c :: d :: s))
    with (a :: b :: c :: 0x2C%N :: group3 (d :: s)).
  rewrite !without_commas_digit, without_commas_comma by done.
  rewrite IH; [done | simpl in *; lia | done].
Qed.

Lemma to_int_nonnil n :
  match Z.to_int n with Decimal.Pos u | Decimal.Neg u => u ≠ Decimal.Nil end.
Proof.
  destruct n; simpl; [done | ..]; apply DecimalPos.Unsigned.to_uint_nonnil.
Qed.

Lemma format_reads_back n :
  int (without_commas (format_thousands n)) = Some n.
Proof.
  unfold format_thousands.
  pose proof (DecimalZ.of_to n) as Hn. pose proof (to_int_nonnil n) as Hnil.
  destruct (Z.to_int n) as [u | u]; simpl in Hn.
  - unfold without_commas. rewrite !rev_is_reverse, filter_reverse.
    fold (without_commas (group3 (reverse (uint_digits u)))).
    rewrite without_commas_group3
      by apply Forall_reverse, uint_digits_are_digits.
    rewrite reverse_involutive, int_uint by done. by rewrite Hn.
  - unfold without_commas. rewrite filter_cons.
    case_decide; [| done]. rewrite !rev_is_reverse, filter_reverse.
    fold (without_commas (group3 (reverse (uint_digits u)))).
    rewrite without_commas_group3
      by apply Forall_reverse, uint_digits_are_digits.
    rewrite reverse_involutive, int_minus_uint by done. by rewrite Hn.
Qed.

(** [money] prints an integer so that it can be read back: without the
    commas the text is what [int] reads as that integer. *)
Theorem money_reads_back n :
  ∃ s, money (INTEGER n) = TEXT s ∧ int (without_commas s) = Some n.
Proof. eexists. split; [done | apply format_reads_back]. Qed.

(** [int] by the first character of the stripped text. *)
Lemma int_by_sign s :
  int s =
  match strip_with int_isspace s with
  | [] => None
  | c :: s' =>
      if (c =? 0x2B)%N then int_digits 0 false s'
      else if (c =? 0x2D)%N then Z.opp <$> int_digits 0 false s'
      else int_digits 0 false (c :: s')
  end.
Proof.
  unfold int. destruct (strip_with int_isspace s) as [|c s']; [done |].
  destruct c as [|p]; [done |].
  do 6 (try (destruct p as [p|p|]; try reflexivity)).
Qed.

Lemma int_digits_comma acc prev (s : text) :
  0x2C%N ∈ s → int_digits acc prev s = None.
Proof.
  revert acc prev. induction s as [|c s IH]; intros acc prev Hin;
    [by apply elem_of_nil in Hin |].
  apply elem_of_cons in Hin as [<- | Hin]; [done |].
  simpl. destruct (c =? 0x5F)%N.
  - destruct prev; [by apply IH | done].
  - destruct (decimal c); [by apply IH | done].
Qed.

Lemma elem_of_lstrip sp c (s : text) :
  sp c = false → c ∈ s → c ∈ lstrip sp s.
Proof.
  intros Hc. induction s as [|c' s IH]; [done |]. simpl.
  destruct (sp c') eqn:Hc'; [| done].
  intros [-> | Hin]%elem_of_cons; [congruence | by apply IH].
Qed.

(** A text with a comma in it is no number for [int]. *)
Lemma int_comma (s : text) : 0x2C%N ∈ s → int s = None.
Proof.
  intros Hin. rewrite int_by_sign.
  assert (0x2C%N ∈ strip_with int_isspace s) as Hin'.
  { unfold strip_with. rewrite !rev_is_reverse. apply elem_of_reverse.
    apply elem_of_lstrip; [done |]. apply elem_of_reverse.
    by apply elem_of_lstrip. }
  destruct (strip_with int_isspace s) as [|c s']; [done |].
  destruct (N.eqb_spec c 0x2B) as [-> | _].
  { apply elem_of_cons in Hin' as [? | Hin']; [done |].
    by apply int_digits_comma. }
  destruct (N.eqb_spec c 0x2D) as [-> | _].
  { apply elem_of_cons in Hin' as [? | Hin']; [done |].
    by rewrite int_digits_comma. }
  by apply int_digits_comma.
Qed.

Lemma without_commas_none (s : text) : 0x2C%N ∉ s → without_commas s = s.
Proof.
  induction s as [|c s IH]; [done |]. intros Hnot.
  apply not_elem_of_cons in Hnot as [Hc Hnot].
  unfold without_commas in *. rewrite filter_cons.
  case_decide; [by rewrite IH | congruence].
Qed.

(** What [money] has printed it leaves alone: it reads it back as the same
    number, or not as a number at all. *)
Lemma int_format_thousands n :
  int (format_thousands n) = None ∨ int (format_thousands n) = Some n.
Proof.
  destruct (decide (0x2C%N ∈ format_thousands n)) as [Hin | Hnot].
  - left. by apply int_comma.
  - right. rewrite <- (without_commas_none _ Hnot) at 1.
    apply format_reads_back.
Qed.

(** Applying [money] to what [money] returned changes nothing: a value
    that was already formatted, and one that was no number in the first
    place, come back as they are. *)
Theorem money_twice v : money (money v) = money v.
Proof.
  assert (∀ n, money (TEXT (format_thousands n)) = TEXT (format_thousands n))
    as Hfmt.
  { intros n. simpl. by destruct (int_format_thousands n) as [-> | ->]. }
  destruct v as [| n | s]; simpl; [done | apply Hfmt |].
  destruct (int s) as [n|] eqn:Hs; [apply Hfmt |].
  simpl. by rewrite Hs.
Qed.

End MoneyFacts.
